(** * AXIO MET AX-178 logger: frame decoding and stream synchronisation

    A shallow embedding of [axio-logger.py] and the properties of its
    frame decoder, its mode table and its synchroniser.

    Conventions of the embedding:
    - a Python [bytes] object is a [list byte]; iterating over it yields
      the integers 0..255 ([byte_int]);
    - a Python [int] is a [Z]; a Python [float] is a binary64 primitive
      float, and [int / int], [float / int], [float * int] convert the
      integer operand first;
    - a [bitarray] is a [list bool], index 0 first;
    - an expression that can raise has an [option] type, [None] standing
      for the exception that propagates;
    - the serial port is an interface ([SerialPort]); what the program
      writes to the terminal is a list of [line]s tagged with the stream
      they go to. *)

From Stdlib Require Import ZArith Floats Uint63 Strings.Byte DecimalString String Ascii Lia.
From stdpp Require Import gmap strings list.

Set Warnings "-inexact-float".
Local Open Scope string_scope.
Local Open Scope list_scope.
Local Open Scope Z_scope.

(** Sequencing of computations that can raise. *)
Notation "'do' x <- e ; k" :=
  (match e with Some x => k | None => None end)
  (at level 10, x name, e at level 100, k at level 200, only parsing).

(** ** Python values and built-ins *)

Definition bytes := list byte.

(** The integer a [bytes] object yields for the element [c]. *)
Definition byte_int (c : byte) : Z := Z.of_N (Byte.to_N c).

(** [a[i:j]] on a sequence: never raises, the bounds are clipped. *)
Definition slice {A : Type} (l : list A) (i j : nat) : list A :=
  take (j - i) (drop i l).

(** [str(n)] for an [int]: its decimal numeral. *)
Definition str (n : Z) : string := NilZero.string_of_int (Z.to_int n).

(** [sep.join(l)]. *)
Fixpoint join (sep : string) (l : list string) : string :=
  match l with
  | [] => ""
  | [s] => s
  | s :: l' => (s ++ sep ++ join sep l')%string
  end.

Definition digit_of_ascii (c : ascii) : option Z :=
  let n := Z.of_N (N_of_ascii c) in
  if ((48 <=? n) && (n <=? 57))%Z then Some (n - 48) else None.

Fixpoint int_digits (s : string) (acc : Z) : option Z :=
  match s with
  | EmptyString => Some acc
  | String c s' =>
      match digit_of_ascii c with
      | Some d => int_digits s' (10 * acc + d)
      | None => None
      end
  end.

(** [int(s)] for a string: an optional sign followed by one or more
    decimal digits.  [None] is [ValueError].  (Python also accepts
    surrounding white space and underscores between digits; such strings
    are rejected here, so a success of the model is a success of
    Python's [int] with the same result.) *)
Definition int (s : string) : option Z :=
  match s with
  | EmptyString => None
  | String "-" EmptyString | String "+" EmptyString => None
  | String "-" s' => Z.opp <$> int_digits s' 0
  | String "+" s' => int_digits s' 0
  | _ => int_digits s 0
  end.

(** Python's [float]: IEEE 754 binary64.  The conversion of an [int] is
    exact below 2^53, which bounds every integer of this program. *)
Definition float_of_int (n : Z) : float := PrimFloat.of_uint63 (Uint63.of_Z n).

(** [a / b] on two [int]s ([ZeroDivisionError] is [None]). *)
Definition truediv (a b : Z) : option float :=
  if b =? 0 then None else Some (float_of_int a / float_of_int b)%float.

(** [x / n] and [x * n] on a [float] and an [int] literal. *)
Definition fdiv (x : float) (n : Z) : float := (x / float_of_int n)%float.
Definition fmul (x : float) (n : Z) : float := (x * float_of_int n)%float.

(** What the variable [value] holds when it is printed: a [float], or the
    string the overflow test assigns to it. *)
Inductive pyvalue :=
| Num (x : float)
| Str (s : string).

Definition OVERFLOW : pyvalue := Str "OVERFLOW".

(** ** bitarray (little-endian bit order) *)

Definition bitarray := list bool.

Definition bits_of_byte (c : byte) : list bool :=
  let '(b0, (b1, (b2, (b3, (b4, (b5, (b6, b7))))))) := Byte.to_bits c in
  [b0; b1; b2; b3; b4; b5; b6; b7].

(** [ba.frombytes(bs)]: extends [ba] with the bits of [bs], the least
    significant bit of each byte first. *)
Definition frombytes (ba : bitarray) (bs : bytes) : bitarray :=
  ba ++ flat_map bits_of_byte bs.

(** One byte of the buffer from up to eight bits; the pad bits are zero. *)
Definition byte_of_bits (l : list bool) : byte :=
  Byte.of_bits (nth 0 l false, (nth 1 l false, (nth 2 l false, (nth 3 l false,
               (nth 4 l false, (nth 5 l false, (nth 6 l false, nth 7 l false))))))).

Fixpoint tobytes_chunks (n : nat) (ba : bitarray) : bytes :=
  match n with
  | O => []
  | S n' =>
      match ba with
      | [] => []
      | _ => byte_of_bits (take 8 ba) :: tobytes_chunks n' (drop 8 ba)
      end
  end.

(** [ba.tobytes()]. *)
Definition tobytes (ba : bitarray) : bytes := tobytes_chunks (length ba) ba.

Definition bit_of_ascii (c : ascii) : option bool :=
  if Ascii.eqb c "0" then Some false
  else if Ascii.eqb c "1" then Some true
  else None.

(** [bitarray(s, endian='little')] for a string of '0' and '1'
    ([None]: another character, for which bitarray raises). *)
Fixpoint bitarray_of_string (s : string) : option bitarray :=
  match s with
  | EmptyString => Some []
  | String c s' =>
      do b <- bit_of_ascii c;
      do ba <- bitarray_of_string s';
      Some (b :: ba)
  end.

(** ** The program *)

Record Mode := mkMode { unit : string; divisor : Z }.

#[global] Instance Mode_eq_dec : EqDecision Mode.
Proof. solve_decision. Defined.

(** [bit_bytes(bits)] *)
Definition bit_bytes (bits : string) : option bytes :=
  tobytes <$> bitarray_of_string bits.

#[global] Instance byte_eq_dec : EqDecision byte := Byte.byte_eq_dec.

#[global] Instance byte_countable : Countable byte :=
  inj_countable Byte.to_N Byte.of_N Byte.of_to_N.

(** The dictionary display of [modes], in source order. *)
Definition mode_entries : list (string * Mode) :=
  [ ("001010000", mkMode "V AC" 10000);
    ("001010001", mkMode "%" 100);
    ("001010010", mkMode "mV DC" 1000);
    ("001010011", mkMode "nF" 100);
    ("001010100", mkMode "V DC" 10000);
    ("001010101", mkMode "Ohm" 100);
    ("001010110", mkMode "mV AC DC" 100);
    ("001010111", mkMode "uA AC" 100);
    ("001011000", mkMode "dBm" 100);
    ("001011001", mkMode "VF" 10000);
    ("001011010", mkMode "mV AC" 1000);
    ("001011011", mkMode "uA DC" 100);
    ("001011100", mkMode "A DC" 10000);
    ("001011110", mkMode "Hz" 1000);
    ("001011111", mkMode "uA AC DC" 100) ].

(** Evaluating the display: each key is [bit_bytes] of its literal, and a
    later entry with an equal key would replace an earlier one. *)
Definition build_modes (entries : list (string * Mode)) : option (gmap bytes Mode) :=
  foldl (fun acc e => do m <- acc; do k <- bit_bytes e.1; Some (<[k := e.2]> m))
        (Some ∅) entries.

Definition modes : gmap bytes Mode := default ∅ (build_modes mode_entries).

(** The command-line flags [process] reads. *)
Record Args := mkArgs { csv : bool; iso_time : bool; raw : bool; unix_time : bool }.

(** The three variables the rewrite rules of [process] read and assign:
    [unit], [value] (a [float] from the division by the divisor on) and
    [negative] (the integer of a bit, only ever tested for truth). *)
Record vars := mkVars { v_unit : string; v_value : float; v_negative : bool }.

Definition set_unit (u : string) (st : vars) : vars :=
  mkVars u (v_value st) (v_negative st).
Definition set_value (x : float) (st : vars) : vars :=
  mkVars (v_unit st) x (v_negative st).
Definition set_negative (n : bool) (st : vars) : vars :=
  mkVars (v_unit st) (v_value st) n.

(** [ba[i]]: [None] is [IndexError]. *)
Definition getitem (ba : bitarray) (i : nat) : option bool := ba !! i.

Section Rules.
Variable ba : bitarray.

(** [if unit == 'Ohm': ...] *)
Definition rule_Ohm (st : vars) : option vars :=
  if String.eqb (v_unit st) "Ohm" then
    do b2 <- getitem ba 2;
    if b2 then Some (set_value (fdiv (v_value st) 100) (set_unit "M Ohm" st))
    else
      do b1 <- getitem ba 1;
      if b1 then Some (set_value (fdiv (v_value st) 10) (set_unit "k Ohm" st))
      else Some st
  else Some st.

(** [if unit == '%': ...] *)
Definition rule_percent (st : vars) : option vars :=
  if String.eqb (v_unit st) "%" then
    do b14 <- getitem ba 14;
    if b14 then Some (set_value (fdiv (v_value st) 1000) (set_unit "nF" st))
    else Some st
  else Some st.

(** [if unit == 'nF': ...] *)
Definition rule_nF (st : vars) : option vars :=
  if String.eqb (v_unit st) "nF" then
    do b2 <- getitem ba 2;
    if b2 then Some (set_value (fmul (v_value st) 10) (set_unit "uF" st))
    else Some st
  else Some st.

(** [if unit == 'V AC': negative = 0; ...] *)
Definition rule_V_AC (st : vars) : option vars :=
  if String.eqb (v_unit st) "V AC" then
    let st := set_negative false st in
    do b1 <- getitem ba 1;
    if b1 then Some (set_value (fmul (v_value st) 100) st)
    else Some st
  else Some st.

(** [if unit == 'mV DC' and int(ba[12]): ...] *)
Definition rule_mV_DC (st : vars) : option vars :=
  if String.eqb (v_unit st) "mV DC" then
    do b12 <- getitem ba 12;
    if b12 then
      Some (set_value (fdiv (v_value st) 10) (set_negative false (set_unit "A AC" st)))
    else Some st
  else Some st.

(** [if unit == 'V DC' and int(ba[12]): ...] *)
Definition rule_V_DC (st : vars) : option vars :=
  if String.eqb (v_unit st) "V DC" then
    do b12 <- getitem ba 12;
    if b12 then Some (set_value (fmul (v_value st) 10) (set_unit "mA AC DC" st))
    else Some st
  else Some st.

(** [if unit == 'mV AC' and int(ba[12]): ...] *)
Definition rule_mV_AC (st : vars) : option vars :=
  if String.eqb (v_unit st) "mV AC" then
    do b12 <- getitem ba 12;
    if b12 then Some (set_value (fdiv (v_value st) 10) (set_unit "A AC DC" st))
    else Some st
  else Some st.

(** [if unit == 'V AC' and int(ba[12]): unit = 'mA DC'] (the division
    of [value] by 10 that follows in the source is commented out). *)
Definition rule_V_AC_12 (st : vars) : option vars :=
  if String.eqb (v_unit st) "V AC" then
    do b12 <- getitem ba 12;
    if b12 then Some (set_unit "mA DC" st)
    else Some st
  else Some st.

(** [if unit == 'dBm' and negative: ...] *)
Definition rule_dBm (st : vars) : option vars :=
  if String.eqb (v_unit st) "dBm" && v_negative st then
    Some (set_negative false (set_value (fdiv (v_value st) 10) (set_unit "ma AC" st)))
  else Some st.

(** [if unit == 'uA AC': negative = 0] *)
Definition rule_uA_AC (st : vars) : option vars :=
  if String.eqb (v_unit st) "uA AC" then Some (set_negative false st)
  else Some st.

(** The ten [if] statements on [unit], in source order. *)
Definition rules (st : vars) : option vars :=
  do st <- rule_Ohm st;
  do st <- rule_percent st;
  do st <- rule_nF st;
  do st <- rule_V_AC st;
  do st <- rule_mV_DC st;
  do st <- rule_V_DC st;
  do st <- rule_mV_AC st;
  do st <- rule_V_AC_12 st;
  do st <- rule_dBm st;
  rule_uA_AC st.

(** [if int(ba[0]): value *= 10] *)
Definition times_ten (st : vars) : option vars :=
  do b0 <- getitem ba 0;
  if b0 then Some (set_value (fmul (v_value st) 10) st) else Some st.

(** [if negative: value = -value] *)
Definition apply_sign (st : vars) : vars :=
  if v_negative st then set_value (- v_value st)%float st else st.

(** [if int(ba[13]): value = 'OVERFLOW'] *)
Definition overflow (st : vars) : option pyvalue :=
  do b13 <- getitem ba 13;
  if b13 then Some OVERFLOW else Some (Num (v_value st)).
End Rules.

(** What one iteration of the loop of [process] does with a full read,
    before any time stamp is taken and the line is printed. *)
Inductive outcome :=
| RawRecord (ba mode : bitarray) (negative : bool) (numbers : string)
| UnknownMode (mode : bitarray) (value : Z)
| Measurement (value : pyvalue) (unit : string).

(** The digit string and the bit array of the frame [a]. *)
Definition numbers_of (a : bytes) : string :=
  join "" (map (fun c => str (byte_int c)) (slice a 3 8)).

Definition bits_of (a : bytes) : bitarray := frombytes [] (slice a 0 3).

(** The statements of [process] from the look-up of the mode to the test
    of [negative]: the variables as the overflow test finds them. *)
Definition measure (ba : bitarray) (m : Mode) (value : Z) (negative : bool) : option vars :=
  do value <- truediv value (divisor m);
  do st <- rules ba (mkVars (unit m) value negative);
  do st <- times_ten ba st;
  Some (apply_sign st).

(** The body of the [while] loop of [process] from the construction of
    the bit array to the overflow test. *)
Definition process_frame (args : Args) (a : bytes) : option outcome :=
  let ba := bits_of a in
  let numbers := numbers_of a in
  do value <- int numbers;
  do multiply_ten <- getitem ba 0;
  let mode := slice ba 3 12 in
  do negative <- getitem ba 21;
  if raw args then Some (RawRecord ba mode negative numbers)
  else
    match modes !! tobytes mode with
    | None => Some (UnknownMode mode value)
    | Some m =>
        do st <- measure ba m value negative;
        do value <- overflow ba st;
        Some (Measurement value (v_unit st))
    end.

(** ** The serial port and the terminal *)

(** The two things the program does with the port besides opening and
    closing it: assigning [port.timeout] and calling [port.read(n)], which
    returns at most [n] bytes. *)
Class SerialPort (P : Type) := {
  set_timeout : Z -> P -> P;
  read : nat -> P -> bytes * P
}.

Inductive stamp := NoStamp | IsoStamp.

(** The lines the program prints, by the [print] call that writes them. *)
Inductive line :=
| LenLine (n : nat)
| SyncLostLine
| RawLine (ba mode : bitarray) (negative : bool) (numbers : string)
| UnknownModeLine (mode : bitarray) (value : Z)
| ValueLine (ts : stamp) (value : pyvalue) (sep : string) (unit : string).

Inductive stream := stdout | stderr.

Record world (P : Type) := mkWorld { port : P; terminal : list (stream * line) }.
Arguments mkWorld {P} _ _.
Arguments port {P} _.
Arguments terminal {P} _.

(** How a run of a loop with a bound on its iterations ends: the function
    returned, an exception left it, or the bound was reached with the loop
    still going. *)
Inductive status := Returned | Raised | Running.

(** [ts]: adding the separator to the float [time.time()] returns is a
    [TypeError]; [datetime.now().isoformat()] is a string. *)
Definition timestamp (args : Args) : option stamp :=
  if unix_time args then None
  else if iso_time args then Some IsoStamp
  else Some NoStamp.

Section Program.
Context {P : Type} `{SerialPort P}.

Definition print (f : stream) (l : line) (w : world P) : world P :=
  mkWorld (port w) (terminal w ++ [(f, l)]).

Definition port_read (n : nat) (w : world P) : bytes * world P :=
  let '(a, p) := read n (port w) in (a, mkWorld p (terminal w)).

Definition port_set_timeout (t : Z) (w : world P) : world P :=
  mkWorld (set_timeout t (port w)) (terminal w).

(** The [while True] loop of [synchronize], at most [fuel] iterations. *)
Fixpoint synchronize_loop (fuel : nat) (w : world P) : status * world P :=
  match fuel with
  | O => (Running, w)
  | S fuel' =>
      let '(a, w) := port_read 8 w in
      let w := print stdout (LenLine (length a)) w in
      if Nat.eqb (length a) 8 then (Returned, port_set_timeout 400 w)
      else synchronize_loop fuel' w
  end.

Definition synchronize (fuel : nat) (w : world P) : status * world P :=
  let w := port_set_timeout 50 w in
  let '(_, w) := port_read 16 w in
  synchronize_loop fuel w.

Definition sep_of (args : Args) : string :=
  if csv args then "," else String (ascii_of_nat 9) EmptyString.

(** The [while True] loop of [process], at most [fuel] iterations. *)
Fixpoint process_loop (fuel : nat) (args : Args) (w : world P) : status * world P :=
  match fuel with
  | O => (Running, w)
  | S fuel' =>
      let '(a, w) := port_read 8 w in
      if negb (Nat.eqb (length a) 8) then
        let w := print stderr SyncLostLine w in
        match synchronize fuel' w with
        | (Returned, w) => process_loop fuel' args w
        | r => r
        end
      else
        match process_frame args a with
        | None => (Raised, w)
        | Some (RawRecord ba mode negative numbers) =>
            process_loop fuel' args (print stdout (RawLine ba mode negative numbers) w)
        | Some (UnknownMode mode value) =>
            process_loop fuel' args (print stderr (UnknownModeLine mode value) w)
        | Some (Measurement value unit) =>
            match timestamp args with
            | None => (Raised, w)
            | Some ts =>
                process_loop fuel' args
                  (print stdout (ValueLine ts value (sep_of args) unit) w)
            end
        end
  end.

Definition process (fuel : nat) (args : Args) (w : world P) : status * world P :=
  match synchronize fuel w with
  | (Returned, w) => process_loop fuel args w
  | r => r
  end.
End Program.

(** ** A scripted port

    A port whose successive [read] calls return the successive entries of
    a script, clipped to the size asked for, then nothing; it records the
    calls made on it and the last timeout assigned. *)

Inductive call := SetTimeout (t : Z) | Read (n : nat).

Record scripted := mkScripted {
  timeout : option Z;
  script : list bytes;
  calls : list call
}.

#[global] Instance scripted_port : SerialPort scripted := {
  set_timeout t p := mkScripted (Some t) (script p) (calls p ++ [SetTimeout t]);
  read n p :=
    match script p with
    | [] => ([], mkScripted (timeout p) [] (calls p ++ [Read n]))
    | c :: rest => (take n c, mkScripted (timeout p) rest (calls p ++ [Read n]))
    end
}.

(** ** Notions used to state the properties *)

(** The magnitude of a frame: what [int(numbers)] assigns to [value]. *)
Definition magnitude (a : bytes) : option Z := int (numbers_of a).

(** The ModeKey of a frame: [ba[3:12]]. *)
Definition mode_key (a : bytes) : bitarray := slice (bits_of a) 3 12.

(** The number of characters of [str(c)] for a byte [c]. *)
Definition width (c : byte) : Z := Z.of_nat (String.length (str (byte_int c))).

(** Reading the numerals of a list of bytes from left to right. *)
Definition numeral_value (cs : bytes) : Z :=
  foldl (fun acc c => acc * 10 ^ width c + byte_int c) 0 cs.

(** The keys of [modes] as bit patterns, with their entries. *)
Definition mode_bits : list (bitarray * Mode) :=
  omap (fun e => (fun k => (k, e.2)) <$> bitarray_of_string e.1) mode_entries.

(** The unit and divisor pairs of the mode table as the specification
    lists them. *)
Definition listed_modes : list (string * Z) :=
  [ ("V AC", 10000); ("%", 100); ("mV DC", 1000); ("nF", 100); ("V DC", 10000);
    ("Ohm", 100); ("mV AC DC", 100); ("uA AC", 100); ("dBm", 100); ("VF", 10000);
    ("mV AC", 1000); ("uA DC", 100); ("A DC", 10000); ("Hz", 1000);
    ("uA AC DC", 100) ].

(** The indices of the BitField the rewrite rules, the multiplier, the
    overflow test and the sign read. *)
Definition special_bits : list nat := [0; 1; 2; 12; 13; 14; 21]%nat.

(** Sample inputs: the flags of a plain run, and frames in mode V DC
    (key 001010100) with the digits 0 1 2 3 4. *)
Definition plain_args : Args := mkArgs false false false false.
Definition raw_args : Args := mkArgs false false true false.

Definition frame_V_DC : bytes :=
  ["160"; "002"; "000"; "000"; "001"; "002"; "003"; "004"]%byte.
Definition frame_V_DC_12 : bytes :=
  ["160"; "018"; "000"; "000"; "001"; "002"; "003"; "004"]%byte.
Definition frame_V_DC_overflow : bytes :=
  ["160"; "034"; "000"; "000"; "001"; "002"; "003"; "004"]%byte.
Definition frame_V_DC_negative : bytes :=
  ["160"; "002"; "032"; "000"; "001"; "002"; "003"; "004"]%byte.
Definition frame_V_DC_overflow_negative : bytes :=
  ["160"; "034"; "032"; "000"; "001"; "002"; "003"; "004"]%byte.
(** Mode mV DC (key 001010010) with bit 12 and the sign bit set. *)
Definition frame_mV_DC_12 : bytes :=
  ["160"; "020"; "032"; "000"; "001"; "002"; "003"; "004"]%byte.
(** Mode V AC (key 001010000) with bit 12 set. *)
Definition frame_V_AC_12 : bytes :=
  ["160"; "016"; "000"; "000"; "001"; "002"; "003"; "004"]%byte.
(** No mode has the key 000000000. *)
Definition frame_unknown : bytes :=
  ["000"; "000"; "000"; "000"; "001"; "002"; "003"; "004"]%byte.

(** A line that reports a decoded frame: a measurement or an unknown
    mode. *)
Definition is_decoded_line (l : line) : bool :=
  match l with
  | UnknownModeLine _ _ | ValueLine _ _ _ _ => true
  | LenLine _ | SyncLostLine | RawLine _ _ _ _ => false
  end.

Section Reads.
Context {P : Type} `{SerialPort P}.

(** The port after [k] successive calls of [read(8)]. *)
Fixpoint after_reads (k : nat) (p : P) : P :=
  match k with
  | O => p
  | S k' => after_reads k' (read 8 p).2
  end.

(** The lengths of the results of [k] successive calls of [read(8)], as
    [synchronize] prints them. *)
Fixpoint len_lines (k : nat) (p : P) : list (stream * line) :=
  match k with
  | O => []
  | S k' => (stdout, LenLine (length (read 8 p).1)) :: len_lines k' (read 8 p).2
  end.

(** The call of [read(8)] number [k], counting from 0, returns 8 bytes. *)
Definition full_read (k : nat) (p : P) : Prop :=
  length (read 8 (after_reads k p)).1 = 8%nat.

(** The number of the first of the next [n] calls of [read(8)] that
    returns 8 bytes, if there is one. *)
Fixpoint first_full (n : nat) (p : P) : option nat :=
  match n with
  | O => None
  | S n' =>
      if Nat.eqb (length (read 8 p).1) 8 then Some O
      else S <$> first_full n' (read 8 p).2
  end.
End Reads.

(** A scripted port with three frames behind a junk read and two short
    reads. *)
Definition sample_port : world scripted :=
  mkWorld (mkScripted None
             [ take 4 frame_V_DC; take 3 frame_V_DC; take 5 frame_V_DC;
               frame_V_DC; frame_unknown; frame_V_DC_12 ] []) [].

(** The last three statements of the decoder on a value [x] the rules
    left: times ten if bit 0 is set, negated if [negative] still holds,
    replaced by the sentinel if bit 13 is set. *)
Definition finish (b0 negative b13 : bool) (x : float) : pyvalue :=
  let y := if b0 then fmul x 10 else x in
  let z := if negative then (- y)%float else y in
  if b13 then OVERFLOW else Num z.

(** The unit labels the program can print: the fifteen of the table and
    the eight the rules assign. *)
Definition all_units : list string :=
  [ "V AC"; "%"; "mV DC"; "nF"; "V DC"; "Ohm"; "mV AC DC"; "uA AC"; "dBm"; "VF";
    "mV AC"; "uA DC"; "A DC"; "Hz"; "uA AC DC";
    "M Ohm"; "k Ohm"; "uF"; "A AC"; "mA AC DC"; "A AC DC"; "mA DC"; "ma AC" ].

(** The indices of the bit array the decoder reads: 0 to 14 and 21. *)
Definition decoder_bits : list nat := seq 0 15 ++ [21%nat].

(** What a run in decoded mode with the flags [args] may print: lengths
    and the loss of synchronisation, unknown modes, and values with the
    separator and time stamp the flags select and a unit of [all_units]. *)
Definition decoded_mode_line (args : Args) (l : line) : Prop :=
  match l with
  | LenLine _ | SyncLostLine | UnknownModeLine _ _ => True
  | RawLine _ _ _ _ => False
  | ValueLine ts _ sep u =>
      timestamp args = Some ts ∧ sep = sep_of args ∧ u ∈ all_units
  end.

(** The stream each kind of line is printed on. *)
Definition line_stream (l : line) : stream :=
  match l with
  | SyncLostLine | UnknownModeLine _ _ => stderr
  | LenLine _ | RawLine _ _ _ _ | ValueLine _ _ _ _ => stdout
  end.

(** The closed form of the decoder on the frame [a]: the key is known,
    and the frame is decoded to the unit [u] and to the quotient of the
    magnitude by the divisor, rescaled by [scale] and finished; the sign
    bit negates the value only if [keep_sign] holds. *)
Definition decodes_as (args : Args) (a : bytes) (scale : float → float)
    (keep_sign : bool) (u : string) : Prop :=
  ∃ M m v b0 sign b13,
    magnitude a = Some M ∧
    modes !! tobytes (mode_key a) = Some m ∧
    truediv M (divisor m) = Some v ∧
    getitem (bits_of a) 0 = Some b0 ∧
    getitem (bits_of a) 21 = Some sign ∧
    getitem (bits_of a) 13 = Some b13 ∧
    process_frame args a
    = Some (Measurement (finish b0 (keep_sign && sign) b13 (scale v)) u).

(** More sample frames: Ohm (key 001010101) with bit 2 set; % (key
    001010001) with bits 2 and 14 set; nF (key 001010011) with bit 2 set;
    V AC with bit 1 and the sign bit set; mV AC (key 001011010) with bit 12
    set; dBm (key 001011000) with the sign bit set; Hz (key 001011110)
    with bits 1, 2, 12, 14 and the sign bit set; V DC with bit 0 set. *)
Definition frame_Ohm_2 : bytes :=
  ["164"; "010"; "000"; "000"; "001"; "002"; "003"; "004"]%byte.
Definition frame_percent_2_14 : bytes :=
  ["164"; "072"; "000"; "000"; "001"; "002"; "003"; "004"]%byte.
Definition frame_nF_2 : bytes :=
  ["164"; "012"; "000"; "000"; "001"; "002"; "003"; "004"]%byte.
Definition frame_V_AC_1 : bytes :=
  ["162"; "000"; "032"; "000"; "001"; "002"; "003"; "004"]%byte.
Definition frame_mV_AC_12 : bytes :=
  ["160"; "021"; "000"; "000"; "001"; "002"; "003"; "004"]%byte.
Definition frame_dBm_negative : bytes :=
  ["160"; "001"; "032"; "000"; "001"; "002"; "003"; "004"]%byte.
Definition frame_Hz : bytes :=
  ["166"; "087"; "032"; "000"; "001"; "002"; "003"; "004"]%byte.
Definition frame_V_DC_0 : bytes :=
  ["161"; "002"; "000"; "000"; "001"; "002"; "003"; "004"]%byte.
(** [frame_V_DC] with the bits 15 to 20, 22 and 23 set. *)
Definition frame_V_DC_noise : bytes :=
  ["160"; "130"; "223"; "000"; "001"; "002"; "003"; "004"]%byte.

(** * Properties *)

(** ** Numerals *)

Lemma int_digits_app (s1 s2 : string) (acc : Z) :
  int_digits (s1 ++ s2)%string acc = do x <- int_digits s1 acc; int_digits s2 x.
Proof.
  revert acc. induction s1 as [|c s1 IH]; intros acc; simpl; [done|].
  destruct (digit_of_ascii c); [apply IH | done].
Qed.

Lemma byte_width_cases (c : byte) :
  (width c = 1 ∧ 0 <= byte_int c <= 9) ∨
  (width c = 2 ∧ 10 <= byte_int c <= 99) ∨
  (width c = 3 ∧ 100 <= byte_int c <= 255).
Proof. destruct c; vm_compute; intuition congruence. Qed.

(** Evaluate the closed calls of the numeral functions in the goal. *)
Ltac eval_closed f :=
  repeat match goal with
  | |- context [f ?c] =>
      let v := eval vm_compute in (f c) in progress change (f c) with v
  end.

Lemma str_byte_digits (c : byte) (acc : Z) :
  int_digits (str (byte_int c)) acc = Some (acc * 10 ^ width c + byte_int c).
Proof.
  destruct c; eval_closed width; eval_closed byte_int; eval_closed str;
    cbn [int_digits]; eval_closed digit_of_ascii; f_equal; lia.
Qed.

Lemma str_byte_int (c : byte) (s : string) :
  int (str (byte_int c) ++ s)%string = int_digits (str (byte_int c) ++ s)%string 0.
Proof. destruct c; reflexivity. Qed.

Lemma bytes8 (a : bytes) :
  length a = 8%nat → ∃ c0 c1 c2 c3 c4 c5 c6 c7, a = [c0; c1; c2; c3; c4; c5; c6; c7].
Proof.
  intros Hlen.
  do 8 (destruct a as [|? a]; [discriminate Hlen|]).
  destruct a; [|discriminate Hlen]. by repeat eexists.
Qed.

Lemma magnitude_numeral (a : bytes) :
  length a = 8%nat → magnitude a = Some (numeral_value (slice a 3 8)).
Proof.
  intros (c0 & c1 & c2 & c3 & c4 & c5 & c6 & c7 & ->)%bytes8.
  unfold magnitude, numbers_of, numeral_value.
  cbn [slice drop take Nat.sub map join foldl].
  rewrite str_byte_int.
  do 4 (rewrite int_digits_app, str_byte_digits;
        change (String.append "" ?s) with s).
  apply str_byte_digits.
Qed.

(** ** Bit arrays and the mode table *)

Lemma bits_of_byte_8 (c : byte) :
  ∃ b0 b1 b2 b3 b4 b5 b6 b7, bits_of_byte c = [b0; b1; b2; b3; b4; b5; b6; b7].
Proof.
  unfold bits_of_byte.
  destruct (Byte.to_bits c) as (b0 & b1 & b2 & b3 & b4 & b5 & b6 & b7).
  by repeat eexists.
Qed.

Lemma bits_of_24 (a : bytes) :
  length a = 8%nat →
  ∃ x0 x1 x2 x3 x4 x5 x6 x7 x8 x9 x10 x11 x12 x13 x14 x15
    x16 x17 x18 x19 x20 x21 x22 x23,
    bits_of a = [x0; x1; x2; x3; x4; x5; x6; x7; x8; x9; x10; x11; x12; x13;
                 x14; x15; x16; x17; x18; x19; x20; x21; x22; x23].
Proof.
  intros (c0 & c1 & c2 & c3 & c4 & c5 & c6 & c7 & ->)%bytes8.
  unfold bits_of, frombytes. cbn [slice drop take Nat.sub flat_map app].
  destruct (bits_of_byte_8 c0) as (? & ? & ? & ? & ? & ? & ? & ? & ->).
  destruct (bits_of_byte_8 c1) as (? & ? & ? & ? & ? & ? & ? & ? & ->).
  destruct (bits_of_byte_8 c2) as (? & ? & ? & ? & ? & ? & ? & ? & ->).
  cbn [app]. by repeat eexists.
Qed.

Lemma known_mode_key (x3 x4 x5 x6 x7 x8 x9 x10 x11 : bool) (m : Mode) :
  modes !! tobytes [x3; x4; x5; x6; x7; x8; x9; x10; x11] = Some m →
  ([x3; x4; x5; x6; x7; x8; x9; x10; x11], m) ∈ mode_bits.
Proof.
  destruct x3, x4, x5, x6, x7, x8, x9, x10, x11; vm_compute;
    first [ discriminate | intros [= <-]; repeat constructor ].
Qed.

Lemma modes_divisors : map_Forall (fun _ m => 0 < divisor m) modes.
Proof. apply (bool_decide_unpack _). by vm_compute. Qed.

Lemma truediv_pos (a b : Z) :
  0 < b → truediv a b = Some (float_of_int a / float_of_int b)%float.
Proof. intros Hb. unfold truediv. by destruct (Z.eqb_spec b 0); [lia|]. Qed.

Lemma truediv_mode (k : bytes) (m : Mode) (value : Z) :
  modes !! k = Some m →
  truediv value (divisor m) = Some (float_of_int value / float_of_int (divisor m))%float.
Proof. intros Hm. apply truediv_pos. by apply (modes_divisors k). Qed.

(** ** The rewrite rules never raise on a 24-bit array *)

Section RulesTotal.
Variable ba : bitarray.
Hypothesis ba_length : length ba = 24%nat.

Lemma getitem_in_range (i : nat) :
  (i < 24)%nat → ∃ b, getitem ba i = Some b.
Proof.
  intros Hi. apply (lookup_lt_is_Some_2 ba i). by rewrite ba_length.
Qed.

Ltac get i :=
  let b := fresh "b" in
  let Hb := fresh "Hb" in
  destruct (getitem_in_range i) as [b Hb]; [lia|]; rewrite Hb; destruct b.

Lemma rule_Ohm_total st : is_Some (rule_Ohm ba st).
Proof.
  unfold rule_Ohm. destruct (String.eqb _ _); [|done].
  get 2%nat; [done|]. by get 1%nat.
Qed.

Lemma rule_percent_total st : is_Some (rule_percent ba st).
Proof. unfold rule_percent. destruct (String.eqb _ _); [|done]. by get 14%nat. Qed.

Lemma rule_nF_total st : is_Some (rule_nF ba st).
Proof. unfold rule_nF. destruct (String.eqb _ _); [|done]. by get 2%nat. Qed.

Lemma rule_V_AC_total st : is_Some (rule_V_AC ba st).
Proof. unfold rule_V_AC. destruct (String.eqb _ _); [|done]. by get 1%nat. Qed.

Lemma rule_mV_DC_total st : is_Some (rule_mV_DC ba st).
Proof. unfold rule_mV_DC. destruct (String.eqb _ _); [|done]. by get 12%nat. Qed.

Lemma rule_V_DC_total st : is_Some (rule_V_DC ba st).
Proof. unfold rule_V_DC. destruct (String.eqb _ _); [|done]. by get 12%nat. Qed.

Lemma rule_mV_AC_total st : is_Some (rule_mV_AC ba st).
Proof. unfold rule_mV_AC. destruct (String.eqb _ _); [|done]. by get 12%nat. Qed.

Lemma rule_V_AC_12_total st : is_Some (rule_V_AC_12 ba st).
Proof. unfold rule_V_AC_12. destruct (String.eqb _ _); [|done]. by get 12%nat. Qed.

Lemma rule_dBm_total st : is_Some (rule_dBm st).
Proof. unfold rule_dBm. by destruct (_ && _). Qed.

Lemma rule_uA_AC_total st : is_Some (rule_uA_AC st).
Proof. unfold rule_uA_AC. by destruct (String.eqb _ _). Qed.

Ltac next H := let st := fresh "st" in destruct H as [st ->].

Lemma rules_total st : is_Some (rules ba st).
Proof.
  unfold rules.
  next (rule_Ohm_total st). next (rule_percent_total st0).
  next (rule_nF_total st1). next (rule_V_AC_total st2).
  next (rule_mV_DC_total st3). next (rule_V_DC_total st4).
  next (rule_mV_AC_total st5). next (rule_V_AC_12_total st6).
  next (rule_dBm_total st7). apply rule_uA_AC_total.
Qed.

Lemma times_ten_total st : is_Some (times_ten ba st).
Proof. unfold times_ten. by get 0%nat. Qed.

Lemma overflow_total st : is_Some (overflow ba st).
Proof. unfold overflow. by get 13%nat. Qed.

Lemma measure_total k m value negative :
  modes !! k = Some m → is_Some (measure ba m value negative).
Proof.
  intros Hm. unfold measure. rewrite (truediv_mode k m value Hm).
  next (rules_total (mkVars (unit m) (float_of_int value / float_of_int (divisor m)) negative)).
  by next (times_ten_total st).
Qed.
End RulesTotal.

(** ** The magnitude *)

Lemma numeral_step (acc B : Z) (c : byte) :
  0 <= acc <= B → 0 <= acc * 10 ^ width c + byte_int c <= B * 1000 + 255.
Proof.
  intros Hacc.
  destruct (byte_width_cases c) as [[-> Hc]|[[-> Hc]|[-> Hc]]]; lia.
Qed.

Lemma numeral_step_digit (acc B : Z) (c : byte) :
  0 <= acc <= B → byte_int c <= 9 →
  acc * 10 ^ width c + byte_int c = 10 * acc + byte_int c ∧
  0 <= 10 * acc + byte_int c <= B * 10 + 9.
Proof.
  intros Hacc Hc.
  destruct (byte_width_cases c) as [[-> Hc']|[[-> Hc']|[-> Hc']]]; lia.
Qed.

Lemma slice_digits (a : bytes) :
  length a = 8%nat → ∃ c3 c4 c5 c6 c7, slice a 3 8 = [c3; c4; c5; c6; c7].
Proof.
  intros (c0 & c1 & c2 & c3 & c4 & c5 & c6 & c7 & ->)%bytes8.
  by exists c3, c4, c5, c6, c7.
Qed.

(** C7, as amended: the magnitude of an 8-byte frame is a non-negative
    integer, at most 255255255255255 (five bytes of value 255); when each
    of the five digit bytes has a value from 0 to 9 it is the five-digit
    number they spell, and then it lies in 0..99999. *)
Theorem magnitude_range (a : bytes) :
  length a = 8%nat →
  ∃ M, magnitude a = Some M ∧ 0 <= M <= 255255255255255 ∧
       ((∀ c, c ∈ slice a 3 8 → byte_int c <= 9) →
        M = foldl (fun acc c => 10 * acc + byte_int c) 0 (slice a 3 8) ∧
        0 <= M <= 99999).
Proof.
  intros Hlen. exists (numeral_value (slice a 3 8)).
  split; [by apply magnitude_numeral|].
  destruct (slice_digits a Hlen) as (c3 & c4 & c5 & c6 & c7 & ->).
  unfold numeral_value. cbn [foldl]. split.
  - pose proof (numeral_step 0 0 c3 ltac:(lia)) as H3.
    pose proof (numeral_step _ _ c4 H3) as H4.
    pose proof (numeral_step _ _ c5 H4) as H5.
    pose proof (numeral_step _ _ c6 H5) as H6.
    pose proof (numeral_step _ _ c7 H6) as H7. lia.
  - intros Hdigits.
    assert (∀ c, c ∈ [c3; c4; c5; c6; c7] → byte_int c <= 9) as Hd by done.
    destruct (numeral_step_digit 0 0 c3 ltac:(lia)) as [E3 H3];
      [apply Hd; repeat constructor|].
    destruct (numeral_step_digit _ _ c4 H3) as [E4 H4]; [apply Hd; repeat constructor|].
    destruct (numeral_step_digit _ _ c5 H4) as [E5 H5]; [apply Hd; repeat constructor|].
    destruct (numeral_step_digit _ _ c6 H5) as [E6 H6]; [apply Hd; repeat constructor|].
    destruct (numeral_step_digit _ _ c7 H6) as [E7 H7]; [apply Hd; repeat constructor|].
    rewrite E3, E4, E5, E6, E7. split; [done | lia].
Qed.

Lemma magnitude_range_witness :
  ∃ M, magnitude ["160"; "002"; "000"; "000"; "001"; "002"; "003"; "004"]%byte = Some M ∧
       0 <= M <= 255255255255255 ∧
       ((∀ c, c ∈ slice ["160"; "002"; "000"; "000"; "001"; "002"; "003"; "004"]%byte 3 8 →
              byte_int c <= 9) →
        M = foldl (fun acc c => 10 * acc + byte_int c) 0
              (slice ["160"; "002"; "000"; "000"; "001"; "002"; "003"; "004"]%byte 3 8) ∧
        0 <= M <= 99999).
Proof.
  apply (magnitude_range ["160"; "002"; "000"; "000"; "001"; "002"; "003"; "004"]%byte).
  reflexivity.
Defined.

(** C7 as stated fails: the digit bytes are turned into text by [str],
    which writes a byte above 9 with two or three digits.  A frame whose
    digit bytes are the ASCII characters '1' to '5' has the magnitude
    4950515253, and one whose last digit byte is 10 has 999910. *)
Lemma magnitude_range_counterexample :
  length ["160"; "002"; "000"; "1"; "2"; "3"; "4"; "5"]%byte = 8%nat ∧
  magnitude ["160"; "002"; "000"; "1"; "2"; "3"; "4"; "5"]%byte = Some 4950515253 ∧
  magnitude ["160"; "002"; "000"; "009"; "009"; "009"; "009"; "010"]%byte = Some 999910 ∧
  ¬ (0 <= 4950515253 <= 99999) ∧ ¬ (0 <= 999910 <= 99999).
Proof. repeat split; [lia | lia]. Qed.

(** ** Decoding never raises *)

Lemma bits_of_length (a : bytes) : length a = 8%nat → length (bits_of a) = 24%nat.
Proof.
  intros Hlen.
  destruct (bits_of_24 a Hlen)
    as (x0 & x1 & x2 & x3 & x4 & x5 & x6 & x7 & x8 & x9 & x10 & x11 & x12
        & x13 & x14 & x15 & x16 & x17 & x18 & x19 & x20 & x21 & x22 & x23 & ->).
  reflexivity.
Qed.

(** The body of the loop, for an 8-byte frame, in terms of its parts. *)
Lemma process_frame_eq (args : Args) (a : bytes) :
  length a = 8%nat →
  ∃ M negative,
    magnitude a = Some M ∧ getitem (bits_of a) 21 = Some negative ∧
    process_frame args a =
      if raw args then Some (RawRecord (bits_of a) (mode_key a) negative (numbers_of a))
      else match modes !! tobytes (mode_key a) with
           | None => Some (UnknownMode (mode_key a) M)
           | Some m =>
               do st <- measure (bits_of a) m M negative;
               do value <- overflow (bits_of a) st;
               Some (Measurement value (v_unit st))
           end.
Proof.
  intros Hlen.
  pose proof (bits_of_length a Hlen) as Hbits.
  destruct (getitem_in_range _ Hbits 0) as [b0 Hb0]; [lia|].
  destruct (getitem_in_range _ Hbits 21) as [negative Hneg]; [lia|].
  exists (numeral_value (slice a 3 8)), negative.
  split; [by apply magnitude_numeral|]. split; [done|].
  unfold process_frame.
  change (int (numbers_of a)) with (magnitude a).
  by rewrite (magnitude_numeral a Hlen), Hb0, Hneg.
Qed.

(** C9: whatever the five digit bytes of an 8-byte frame are, [int]
    accepts the digit string and the body of the loop raises nothing; the
    frame is reported as an unknown mode only when its ModeKey is not in
    the table, and is measured otherwise (or printed raw), with the
    magnitude the digit bytes gave. *)
Theorem digits_never_raise (args : Args) (a : bytes) :
  length a = 8%nat →
  ∃ M o,
    int (numbers_of a) = Some M ∧
    process_frame args a = Some o ∧
    match o with
    | RawRecord _ _ _ numbers => raw args = true ∧ numbers = numbers_of a
    | UnknownMode _ value =>
        raw args = false ∧ modes !! tobytes (mode_key a) = None ∧ value = M
    | Measurement _ _ =>
        raw args = false ∧ is_Some (modes !! tobytes (mode_key a))
    end.
Proof.
  intros Hlen.
  destruct (process_frame_eq args a Hlen) as (M & negative & HM & Hneg & ->).
  exists M. destruct (raw args).
  { eexists. by repeat split. }
  destruct (modes !! tobytes (mode_key a)) as [m|] eqn:Hm.
  - pose proof (bits_of_length a Hlen) as Hbits.
    destruct (measure_total _ Hbits _ m M negative Hm) as [st ->].
    destruct (overflow_total _ Hbits st) as [value ->].
    eexists. by repeat split.
  - eexists. by repeat split.
Qed.

Lemma digits_never_raise_witness :
  ∃ M o,
    int (numbers_of ["160"; "002"; "000"; "255"; "A"; "-"; " "; "x"]%byte) = Some M ∧
    process_frame (mkArgs false false false false)
      ["160"; "002"; "000"; "255"; "A"; "-"; " "; "x"]%byte = Some o ∧
    match o with
    | RawRecord _ _ _ numbers =>
        raw (mkArgs false false false false) = true ∧
        numbers = numbers_of ["160"; "002"; "000"; "255"; "A"; "-"; " "; "x"]%byte
    | UnknownMode _ value =>
        raw (mkArgs false false false false) = false ∧
        modes !! tobytes (mode_key ["160"; "002"; "000"; "255"; "A"; "-"; " "; "x"]%byte) = None ∧
        value = M
    | Measurement _ _ =>
        raw (mkArgs false false false false) = false ∧
        is_Some (modes !! tobytes (mode_key ["160"; "002"; "000"; "255"; "A"; "-"; " "; "x"]%byte))
    end.
Proof.
  apply (digits_never_raise (mkArgs false false false false)
           ["160"; "002"; "000"; "255"; "A"; "-"; " "; "x"]%byte).
  reflexivity.
Defined.

(** ** Frames, bit by bit *)

Arguments float_of_int : simpl never.
Arguments fdiv : simpl never.
Arguments fmul : simpl never.

(** Name the 24 bits of the frame [a] and rewrite its bit array with
    them everywhere. *)
Ltac name_bits a Hlen :=
  let E := fresh "Hba" in
  destruct (bits_of_24 a Hlen)
    as (?x0 & ?x1 & ?x2 & ?x3 & ?x4 & ?x5 & ?x6 & ?x7 & ?x8 & ?x9 & ?x10
        & ?x11 & ?x12 & ?x13 & ?x14 & ?x15 & ?x16 & ?x17 & ?x18 & ?x19
        & ?x20 & ?x21 & ?x22 & ?x23 & E);
  unfold mode_key in *; rewrite E in *;
  cbn [slice take drop Nat.sub getitem lookup list_lookup] in *.

(** Split the hypothesis [H : modes !! tobytes [x3; ...; x11] = Some m]
    into the fifteen entries of the table. *)
Ltac table_cases H :=
  apply known_mode_key in H;
  let l := eval vm_compute in mode_bits in change mode_bits with l in H;
  rewrite !elem_of_cons, elem_of_nil in H;
  destruct_or!; try done; simplify_eq.

Lemma measure_bit_13 (x0 x1 x2 x3 x4 x5 x6 x7 x8 x9 x10 x11 x12 x13 y13 x14 x15
    x16 x17 x18 x19 x20 x21 x22 x23 : bool) (m : Mode) (M : Z) (negative : bool) :
  measure [x0; x1; x2; x3; x4; x5; x6; x7; x8; x9; x10; x11; x12; x13; x14;
           x15; x16; x17; x18; x19; x20; x21; x22; x23] m M negative =
  measure [x0; x1; x2; x3; x4; x5; x6; x7; x8; x9; x10; x11; x12; y13; x14;
           x15; x16; x17; x18; x19; x20; x21; x22; x23] m M negative.
Proof. reflexivity. Qed.

Lemma magnitude_same_digits (a a' : bytes) :
  slice a' 3 8 = slice a 3 8 → magnitude a' = magnitude a.
Proof. unfold magnitude, numbers_of. by intros ->. Qed.

(** C3: in an 8-byte frame with a known ModeKey and bit 13 set, the value
    is the OVERFLOW sentinel, whatever the digits, the mode and the other
    bits are; the unit is the one the rewrite rules left, which is also the
    unit (and [st] holds the value) decoded from the same frame with bit 13
    cleared. *)
Theorem overflow_bit (args : Args) (a : bytes) (m : Mode) :
  raw args = false →
  length a = 8%nat →
  modes !! tobytes (mode_key a) = Some m →
  getitem (bits_of a) 13 = Some true →
  ∃ M negative st,
    magnitude a = Some M ∧
    getitem (bits_of a) 21 = Some negative ∧
    measure (bits_of a) m M negative = Some st ∧
    process_frame args a = Some (Measurement OVERFLOW (v_unit st)) ∧
    ∀ a', length a' = 8%nat →
          slice a' 3 8 = slice a 3 8 →
          bits_of a' = <[13%nat := false]> (bits_of a) →
          process_frame args a' = Some (Measurement (Num (v_value st)) (v_unit st)).
Proof.
  intros Hraw Hlen Hm H13.
  destruct (process_frame_eq args a Hlen) as (M & negative & HM & Hneg & Hpf).
  pose proof (bits_of_length a Hlen) as Hbits.
  destruct (measure_total _ Hbits _ m M negative Hm) as [st Hst].
  exists M, negative, st. repeat split; [done..| |].
  - rewrite Hpf, Hraw, Hm, Hst. unfold overflow. by rewrite H13.
  - intros a' Hlen' Hdigits Hba'.
    destruct (process_frame_eq args a' Hlen') as (M' & negative' & HM' & Hneg' & ->).
    rewrite (magnitude_same_digits _ _ Hdigits), HM in HM'. injection HM' as <-.
    rewrite Hraw. unfold mode_key in *. rewrite Hba' in *. clear Hba' Hpf.
    name_bits a Hlen.
    cbn [insert list_insert] in *.
    cbn [slice take drop Nat.sub getitem lookup list_lookup] in *.
    rewrite Hm. simplify_eq.
    rewrite <- (measure_bit_13 _ _ _ _ _ _ _ _ _ _ _ _ _ true false), Hst.
    reflexivity.
Qed.

Lemma overflow_bit_witness :
  ∃ st, process_frame plain_args frame_V_DC_overflow
        = Some (Measurement OVERFLOW (v_unit st)) ∧
        process_frame plain_args frame_V_DC
        = Some (Measurement (Num (v_value st)) (v_unit st)).
Proof.
  destruct (overflow_bit plain_args frame_V_DC_overflow (mkMode "V DC" 10000))
    as (M & negative & st & _ & _ & _ & Hovf & Hclear); [reflexivity..|].
  exists st. split; [exact Hovf|].
  apply Hclear; reflexivity.
Defined.

(** ** The plain reading of each mode *)

Lemma modes_listed : map_Forall (fun _ m => (unit m, divisor m) ∈ listed_modes) modes.
Proof. apply (bool_decide_unpack _). by vm_compute. Qed.

Lemma mode_bits_lookup :
  Forall (fun e : bitarray * Mode => length e.1 = 9%nat ∧ modes !! tobytes e.1 = Some e.2)
         mode_bits.
Proof. apply (bool_decide_unpack _). by vm_compute. Qed.

Lemma listed_modes_keys (u : string) (d : Z) :
  (u, d) ∈ listed_modes →
  ∃ k, length k = 9%nat ∧ modes !! tobytes k = Some (mkMode u d).
Proof.
  intros Hin.
  assert (∃ k, (k, mkMode u d) ∈ mode_bits) as [k Hk].
  { unfold listed_modes in Hin. rewrite !elem_of_cons, elem_of_nil in Hin.
    destruct_or!; try done; simplify_eq;
      eexists; vm_compute; repeat constructor. }
  exists k. pose proof mode_bits_lookup as Hall.
  rewrite Forall_forall in Hall. exact (Hall _ Hk).
Qed.

(** Evaluate the rewrite rules on a bit array and a unit that are known. *)
Ltac run_rules :=
  unfold measure, rules, rule_Ohm, rule_percent, rule_nF, rule_V_AC, rule_mV_DC,
    rule_V_DC, rule_mV_AC, rule_V_AC_12, rule_dBm, rule_uA_AC, times_ten,
    apply_sign, overflow, getitem;
  simpl.

(** C1: a frame whose ModeKey is in the table and whose special bits are
    all cleared is decoded to the unit of the table entry and to the
    magnitude divided by its divisor; the entry is one of the fifteen pairs
    listed, and each listed pair is the entry of some key. *)
Theorem plain_reading (args : Args) (a : bytes) (m : Mode) :
  raw args = false →
  length a = 8%nat →
  modes !! tobytes (mode_key a) = Some m →
  Forall (fun i => getitem (bits_of a) i = Some false) special_bits →
  (∃ M v, magnitude a = Some M ∧
          truediv M (divisor m) = Some v ∧
          process_frame args a = Some (Measurement (Num v) (unit m))) ∧
  (unit m, divisor m) ∈ listed_modes ∧
  size modes = 15%nat ∧
  ∀ u d, (u, d) ∈ listed_modes →
         ∃ k, length k = 9%nat ∧ modes !! tobytes k = Some (mkMode u d).
Proof.
  intros Hraw Hlen Hm Hbits.
  split; [|split; [exact (modes_listed _ _ Hm)|split; [reflexivity|exact listed_modes_keys]]].
  destruct (process_frame_eq args a Hlen) as (M & negative & HM & Hneg & Hpf).
  rewrite Hraw, Hm in Hpf. exists M. rewrite Hpf, (truediv_mode _ _ M Hm).
  eexists. split; [exact HM|split; [reflexivity|]].
  clear Hpf. rewrite Forall_forall in Hbits.
  pose proof (Hbits 0%nat ltac:(repeat constructor)) as H0.
  pose proof (Hbits 1%nat ltac:(repeat constructor)) as H1.
  pose proof (Hbits 2%nat ltac:(repeat constructor)) as H2.
  pose proof (Hbits 12%nat ltac:(repeat constructor)) as H12.
  pose proof (Hbits 13%nat ltac:(repeat constructor)) as H13.
  pose proof (Hbits 14%nat ltac:(repeat constructor)) as H14.
  pose proof (Hbits 21%nat ltac:(repeat constructor)) as H21.
  clear Hbits. name_bits a Hlen. simplify_eq.
  table_cases Hm; unfold measure; (rewrite truediv_pos by done); run_rules;
    reflexivity.
Qed.

Lemma plain_reading_witness :
  process_frame plain_args frame_V_DC = Some (Measurement (Num 0.1234%float) "V DC").
Proof.
  destruct (plain_reading plain_args frame_V_DC (mkMode "V DC" 10000))
    as [(M & v & HM & Hv & Hpf) _];
    [reflexivity | reflexivity | reflexivity
    | apply (bool_decide_unpack _); vm_compute; exact I |].
  vm_compute in HM. injection HM as <-.
  vm_compute in Hv. injection Hv as <-.
  exact Hpf.
Defined.

(** The two V DC scenarios: digits 01234, and the same with bit 12 set. *)
Example scenario_V_DC :
  process_frame plain_args frame_V_DC = Some (Measurement (Num 0.1234%float) "V DC").
Proof. reflexivity. Qed.

Example scenario_V_DC_bit_12 :
  process_frame plain_args frame_V_DC_12
  = Some (Measurement (Num 1.234%float) "mA AC DC").
Proof. reflexivity. Qed.

(** ** Rules on bit 12 *)

(** C5: in mode mV DC with bit 12 set and bits 0, 1, 2, 13 and 14
    cleared, the unit is A AC and the value is the magnitude divided by
    1000, then by 10; the sign bit, set or not, does not negate it. *)
Theorem mV_DC_bit_12 (args : Args) (a : bytes) (m : Mode) :
  raw args = false →
  length a = 8%nat →
  modes !! tobytes (mode_key a) = Some m →
  unit m = "mV DC" →
  getitem (bits_of a) 12 = Some true →
  Forall (fun i => getitem (bits_of a) i = Some false) [0; 1; 2; 13; 14]%nat →
  ∃ M v sign,
    magnitude a = Some M ∧
    divisor m = 1000 ∧
    truediv M 1000 = Some v ∧
    getitem (bits_of a) 21 = Some sign ∧
    process_frame args a = Some (Measurement (Num (fdiv v 10)) "A AC").
Proof.
  intros Hraw Hlen Hm Hunit H12 Hbits.
  destruct (process_frame_eq args a Hlen) as (M & negative & HM & Hneg & Hpf).
  rewrite Hraw, Hm in Hpf. exists M. rewrite Hpf, (truediv_pos M 1000) by done.
  eexists _, negative. split; [exact HM|]. clear Hpf.
  rewrite Forall_forall in Hbits.
  pose proof (Hbits 0%nat ltac:(repeat constructor)) as H0.
  pose proof (Hbits 1%nat ltac:(repeat constructor)) as H1.
  pose proof (Hbits 2%nat ltac:(repeat constructor)) as H2.
  pose proof (Hbits 13%nat ltac:(repeat constructor)) as H13.
  pose proof (Hbits 14%nat ltac:(repeat constructor)) as H14.
  clear Hbits. name_bits a Hlen. simplify_eq.
  table_cases Hm; try discriminate Hunit.
  do 3 (split; [reflexivity|]). reflexivity.
Qed.

Lemma mV_DC_bit_12_witness :
  process_frame plain_args frame_mV_DC_12 = Some (Measurement (Num 0.1234%float) "A AC") ∧
  getitem (bits_of frame_mV_DC_12) 21 = Some true.
Proof.
  destruct (mV_DC_bit_12 plain_args frame_mV_DC_12 (mkMode "mV DC" 1000))
    as (M & v & sign & HM & _ & Hv & Hsign & Hpf);
    [reflexivity | reflexivity | reflexivity | reflexivity | reflexivity
    | apply (bool_decide_unpack _); vm_compute; exact I |].
  vm_compute in HM. injection HM as <-.
  vm_compute in Hv. injection Hv as <-.
  split; [exact Hpf | reflexivity].
Defined.

(** C6: in mode V AC with bit 12 set the rule assigns the unit mA DC and
    nothing else: [value] and [negative] are as before.  The frame is
    decoded to the value of the same frame with bit 12 cleared (the
    magnitude over 10000, times 100 if bit 1 is set, times 10 if bit 0 is
    set, OVERFLOW if bit 13 is set), with the unit mA DC in place of V AC. *)
Theorem V_AC_bit_12 (args : Args) (a : bytes) (m : Mode) :
  raw args = false →
  length a = 8%nat →
  modes !! tobytes (mode_key a) = Some m →
  unit m = "V AC" →
  getitem (bits_of a) 12 = Some true →
  (∀ ba st, getitem ba 12 = Some true → v_unit st = "V AC" →
            rule_V_AC_12 ba st = Some (mkVars "mA DC" (v_value st) (v_negative st))) ∧
  ∃ M v b0 b1 b13,
    magnitude a = Some M ∧
    truediv M (divisor m) = Some v ∧
    getitem (bits_of a) 0 = Some b0 ∧
    getitem (bits_of a) 1 = Some b1 ∧
    getitem (bits_of a) 13 = Some b13 ∧
    let v1 := if b1 then fmul v 100 else v in
    let v0 := if b0 then fmul v1 10 else v1 in
    let value := if b13 then OVERFLOW else Num v0 in
    process_frame args a = Some (Measurement value "mA DC") ∧
    ∀ a', length a' = 8%nat →
          slice a' 3 8 = slice a 3 8 →
          bits_of a' = <[12%nat := false]> (bits_of a) →
          process_frame args a' = Some (Measurement value "V AC").
Proof.
  intros Hraw Hlen Hm Hunit H12. split.
  { intros ba st Hb Hu. unfold rule_V_AC_12. by rewrite Hu, Hb. }
  destruct (process_frame_eq args a Hlen) as (M & negative & HM & Hneg & Hpf).
  rewrite Hraw, Hm in Hpf.
  assert (∀ a', length a' = 8%nat → slice a' 3 8 = slice a 3 8 →
                bits_of a' = <[12%nat := false]> (bits_of a) →
                process_frame args a' =
                  do st <- measure (<[12%nat := false]> (bits_of a)) m M negative;
                  do value <- overflow (<[12%nat := false]> (bits_of a)) st;
                  Some (Measurement value (v_unit st))) as Hpf'.
  { intros a' Hlen' Hdigits Hba'.
    destruct (process_frame_eq args a' Hlen') as (M' & negative' & HM' & Hneg' & ->).
    rewrite (magnitude_same_digits _ _ Hdigits), HM in HM'. injection HM' as <-.
    rewrite Hraw. unfold mode_key in *. rewrite Hba' in *. clear Hba'.
    name_bits a Hlen. cbn [insert list_insert] in *.
    cbn [slice take drop Nat.sub getitem lookup list_lookup] in *.
    rewrite Hm. table_cases Hm; try discriminate Hunit. reflexivity. }
  exists M. rewrite Hpf, (truediv_mode _ _ M Hm). clear Hpf.
  name_bits a Hlen. simplify_eq. eexists _, x0, x1, x13.
  split; [exact HM|]. do 4 (split; [reflexivity|]). cbn zeta.
  table_cases Hm; try discriminate Hunit.
  split.
  - destruct x0, x1, x13; reflexivity.
  - intros a' Hlen' Hdigits Hba'. rewrite (Hpf' a' Hlen' Hdigits Hba').
    destruct x0, x1, x13; reflexivity.
Qed.

Lemma V_AC_bit_12_witness :
  process_frame plain_args frame_V_AC_12 = Some (Measurement (Num 0.1234%float) "mA DC").
Proof.
  destruct (V_AC_bit_12 plain_args frame_V_AC_12 (mkMode "V AC" 10000))
    as (_ & M & v & b0 & b1 & b13 & HM & Hv & H0 & H1 & H13 & Hpf & _);
    [reflexivity..|].
  vm_compute in HM. injection HM as <-.
  vm_compute in Hv. injection Hv as <-.
  vm_compute in H0. injection H0 as <-.
  vm_compute in H1. injection H1 as <-.
  vm_compute in H13. injection H13 as <-.
  exact Hpf.
Defined.

(** ** The sign bit *)

(** C4, as amended: take an 8-byte frame with a known ModeKey, the sign
    bit (21) cleared and bit 13 cleared, and the frame that differs from it
    in the sign bit only.  If no rule has reset [negative] when the sign
    is tested, the second value is the negation of the first and the units
    agree.  A rule has reset it exactly when the unit of the table entry is
    V AC, uA AC or dBm, or is mV DC with bit 12 set; then the value is not
    negated: it is the value the rules and the multiplier left, equal to
    the value of the first frame except in mode dBm, which the sign bit
    turns into ma AC. *)
Theorem sign_bit_negates (args : Args) (a0 a1 : bytes) (m : Mode) :
  raw args = false →
  length a0 = 8%nat →
  length a1 = 8%nat →
  slice a1 3 8 = slice a0 3 8 →
  getitem (bits_of a0) 21 = Some false →
  bits_of a1 = <[21%nat := true]> (bits_of a0) →
  getitem (bits_of a0) 13 = Some false →
  modes !! tobytes (mode_key a0) = Some m →
  ∃ M v b12 st0 st1 st1' y0 y1,
    magnitude a0 = Some M ∧
    truediv M (divisor m) = Some v ∧
    getitem (bits_of a0) 12 = Some b12 ∧
    rules (bits_of a0) (mkVars (unit m) v false) = Some st0 ∧
    rules (bits_of a1) (mkVars (unit m) v true) = Some st1 ∧
    times_ten (bits_of a1) st1 = Some st1' ∧
    process_frame args a0 = Some (Measurement (Num y0) (v_unit st0)) ∧
    process_frame args a1 = Some (Measurement (Num y1) (v_unit st1)) ∧
    (v_negative st1 = true → y1 = (- y0)%float ∧ v_unit st1 = v_unit st0) ∧
    (v_negative st1 = false → y1 = v_value st1') ∧
    (v_negative st1 = false ↔
       unit m = "V AC" ∨ unit m = "uA AC" ∨ unit m = "dBm" ∨
       (unit m = "mV DC" ∧ b12 = true)) ∧
    (v_negative st1 = false → unit m ≠ "dBm" →
       y1 = y0 ∧ v_unit st1 = v_unit st0) ∧
    (unit m = "dBm" → v_unit st0 = "dBm" ∧ v_unit st1 = "ma AC").
Proof.
  intros Hraw Hlen0 Hlen1 Hdigits H21 Hba1 H13 Hm.
  destruct (process_frame_eq args a0 Hlen0) as (M & n0 & HM & Hn0 & Hpf0).
  destruct (process_frame_eq args a1 Hlen1) as (M1 & n1 & HM1 & Hn1 & Hpf1).
  rewrite (magnitude_same_digits _ _ Hdigits), HM in HM1. injection HM1 as <-.
  rewrite Hpf0, Hpf1, Hraw. clear Hpf0 Hpf1.
  unfold mode_key in *. rewrite Hba1 in *. clear Hba1.
  name_bits a0 Hlen0. cbn [insert list_insert] in *.
  cbn [slice take drop Nat.sub getitem lookup list_lookup] in *.
  simplify_eq. rewrite Hm.
  exists M. unfold measure. rewrite (truediv_mode _ _ M Hm).
  table_cases Hm; destruct x0, x1, x2, x12, x14; run_rules;
    do 7 eexists;
    (split; [exact HM|]); (do 7 (split; [reflexivity|]));
    simpl; repeat split; intros; try done;
    try (destruct_or?; destruct_and?; done);
    auto 8.
Qed.

Lemma sign_bit_negates_witness :
  ∃ y0, process_frame plain_args frame_V_DC = Some (Measurement (Num y0) "V DC") ∧
        process_frame plain_args frame_V_DC_negative
        = Some (Measurement (Num (- y0)%float) "V DC").
Proof.
  destruct (sign_bit_negates plain_args frame_V_DC frame_V_DC_negative
              (mkMode "V DC" 10000))
    as (M & v & b12 & st0 & st1 & st1' & y0 & y1 & HM & Hv & _ & Hst0 & Hst1
        & _ & Hpf0 & Hpf1 & Hneg & _);
    [reflexivity..|].
  vm_compute in HM. injection HM as <-.
  vm_compute in Hv. injection Hv as <-.
  vm_compute in Hst0. injection Hst0 as <-.
  vm_compute in Hst1. injection Hst1 as <-.
  destruct (Hneg eq_refl) as [-> _].
  exists y0. split; [exact Hpf0 | exact Hpf1].
Defined.

(** C4 as stated fails when bit 13 is set: both frames are decoded to the
    string OVERFLOW, which is the negation of no number, although no rule
    has reset [negative] in mode V DC. *)
Lemma sign_bit_negates_counterexample :
  length frame_V_DC_overflow = 8%nat ∧
  length frame_V_DC_overflow_negative = 8%nat ∧
  slice frame_V_DC_overflow_negative 3 8 = slice frame_V_DC_overflow 3 8 ∧
  getitem (bits_of frame_V_DC_overflow) 21 = Some false ∧
  bits_of frame_V_DC_overflow_negative = <[21%nat := true]> (bits_of frame_V_DC_overflow) ∧
  modes !! tobytes (mode_key frame_V_DC_overflow) = Some (mkMode "V DC" 10000) ∧
  (v_negative <$> rules (bits_of frame_V_DC_overflow_negative)
                    (mkVars "V DC" 0.1234%float true)) = Some true ∧
  process_frame plain_args frame_V_DC_overflow = Some (Measurement OVERFLOW "V DC") ∧
  process_frame plain_args frame_V_DC_overflow_negative
  = Some (Measurement OVERFLOW "V DC") ∧
  ¬ ∃ y0 y1 u0 u1,
      process_frame plain_args frame_V_DC_overflow = Some (Measurement (Num y0) u0) ∧
      process_frame plain_args frame_V_DC_overflow_negative
      = Some (Measurement (Num y1) u1) ∧
      y1 = (- y0)%float.
Proof.
  do 9 (split; [reflexivity|]).
  intros (y0 & y1 & u0 & u1 & H0 & _). vm_compute in H0. discriminate H0.
Qed.

(** ** The synchroniser *)

Section Synchronizer.
Context {P : Type} `{SerialPort P}.

Lemma first_full_spec (n k : nat) (p : P) :
  first_full n p = Some k ↔
  (k < n)%nat ∧ full_read k p ∧ ∀ j, (j < k)%nat → ¬ full_read j p.
Proof.
  revert k p. induction n as [|n IH]; intros k p; cbn [first_full].
  { split; [done | lia]. }
  destruct (Nat.eqb_spec (length (read 8 p).1) 8) as [Hfull|Hshort].
  - split.
    + intros [= <-]. split; [lia|]. split; [exact Hfull | lia].
    + intros (_ & _ & Hfirst). destruct k as [|k]; [done|].
      destruct (Hfirst 0%nat); [lia | exact Hfull].
  - destruct k as [|k].
    + split.
      * destruct (first_full n _); discriminate.
      * intros (_ & Hfull & _). done.
    + destruct (first_full n (read 8 p).2) as [k'|] eqn:Hk'; cbn [fmap option_fmap option_map].
      * split.
        -- intros [= ->]. apply IH in Hk' as (Hlt & Hfull & Hfirst).
           split; [lia|]. split; [exact Hfull|].
           intros [|j] Hj; [exact Hshort | apply Hfirst; lia].
        -- intros (Hlt & Hfull & Hfirst). f_equal.
           assert (first_full n (read 8 p).2 = Some k) as Hk; [|congruence].
           apply IH. split; [lia|]. split; [exact Hfull|].
           intros j Hj. apply (Hfirst (S j)). lia.
      * split; [done|]. intros (Hlt & Hfull & Hfirst).
        assert (first_full n (read 8 p).2 = Some k) as Hk; [|congruence].
        apply IH. split; [lia|]. split; [exact Hfull|].
        intros j Hj. apply (Hfirst (S j)). lia.
Qed.

Lemma first_full_none (n : nat) (p : P) :
  first_full n p = None ↔ ∀ j, (j < n)%nat → ¬ full_read j p.
Proof.
  revert p. induction n as [|n IH]; intros p; cbn [first_full].
  { split; [lia | done]. }
  destruct (Nat.eqb_spec (length (read 8 p).1) 8) as [Hfull|Hshort].
  - split; [done|]. intros Hno. destruct (Hno 0%nat); [lia | exact Hfull].
  - destruct (first_full n (read 8 p).2) as [k|] eqn:Hk;
      cbn [fmap option_fmap option_map].
    + split; [done|]. intros Hno.
      apply first_full_spec in Hk as (Hlt & Hfull & _).
      destruct (Hno (S k)); [lia | exact Hfull].
    + split; [|done]. intros _ [|j] Hj; [exact Hshort|].
      apply (proj1 (IH _) Hk j). lia.
Qed.
End Synchronizer.

(** The scripted port: a junk read, short reads, then a full one. *)
Lemma scripted_synchronize_loop (pre : list bytes) (f : bytes) (rest : list bytes)
    (t : option Z) (cs : list call) (out : list (stream * line)) (fuel : nat) :
  Forall (fun c => (length c < 8)%nat) pre →
  length f = 8%nat →
  (length pre < fuel)%nat →
  synchronize_loop fuel (mkWorld (mkScripted t (pre ++ f :: rest) cs) out) =
    (Returned,
     mkWorld (mkScripted (Some 400) rest
                (cs ++ replicate (S (length pre)) (Read 8) ++ [SetTimeout 400]))
             (out ++ map (fun c => (stdout, LenLine (length c))) (pre ++ [f]))).
Proof.
  intros Hpre Hf. revert t cs out fuel.
  induction Hpre as [|c pre Hc Hpre IH]; intros t cs out fuel Hfuel;
    (destruct fuel as [|fuel]; [cbn in Hfuel; lia|]).
  - cbn. rewrite firstn_all2 by lia. rewrite Hf.
    unfold port_set_timeout, print. cbn. by rewrite <- app_assoc.
  - cbn [app synchronize_loop]. unfold port_read, print. cbn.
    rewrite firstn_all2 by lia.
    destruct (Nat.eqb_spec (length c) 8) as [?|_]; [lia|].
    cbn in Hfuel. rewrite IH by lia. cbn. by rewrite <- !app_assoc.
Qed.

Lemma scripted_synchronize (junk : bytes) (pre : list bytes) (f : bytes)
    (rest : list bytes) (t : option Z) (cs : list call)
    (out : list (stream * line)) (fuel : nat) :
  Forall (fun c => (length c < 8)%nat) pre →
  length f = 8%nat →
  (length pre < fuel)%nat →
  synchronize fuel (mkWorld (mkScripted t (junk :: pre ++ f :: rest) cs) out) =
    (Returned,
     mkWorld (mkScripted (Some 400) rest
                (cs ++ [SetTimeout 50; Read 16] ++
                 replicate (S (length pre)) (Read 8) ++ [SetTimeout 400]))
             (out ++ map (fun c => (stdout, LenLine (length c))) (pre ++ [f]))).
Proof.
  intros Hpre Hf Hfuel. unfold synchronize, port_read, port_set_timeout. cbn.
  rewrite (scripted_synchronize_loop pre f rest) by done.
  by rewrite <- !app_assoc.
Qed.

Section SynchronizerLoop.
Context {P : Type} `{SerialPort P}.

Lemma synchronize_loop_eq (fuel : nat) (w : world P) :
  synchronize_loop fuel w =
    match first_full fuel (port w) with
    | Some k =>
        (Returned,
         mkWorld (set_timeout 400 (after_reads (S k) (port w)))
                 (terminal w ++ len_lines (S k) (port w)))
    | None =>
        (Running,
         mkWorld (after_reads fuel (port w)) (terminal w ++ len_lines fuel (port w)))
    end.
Proof.
  revert w. induction fuel as [|fuel IH]; intros [p out].
  { cbn. by rewrite app_nil_r. }
  cbn [synchronize_loop first_full port terminal]. unfold port_read.
  cbn [port terminal]. destruct (read 8 p) as [a p'] eqn:Hread.
  unfold print, port_set_timeout. cbn [port terminal fst snd].
  destruct (Nat.eqb (length a) 8).
  - cbn [after_reads len_lines]. by rewrite Hread.
  - rewrite IH. cbn [port terminal].
    destruct (first_full fuel p') as [k|]; cbn [fmap option_fmap option_map];
      cbn [after_reads len_lines]; rewrite Hread; cbn [fst snd];
      by rewrite <- app_assoc.
Qed.

Lemma synchronize_eq (fuel : nat) (w : world P) :
  synchronize fuel w =
    synchronize_loop fuel
      (mkWorld (read 16 (set_timeout 50 (port w))).2 (terminal w)).
Proof.
  unfold synchronize, port_read, port_set_timeout. cbn [port terminal].
  by destruct (read 16 (set_timeout 50 (port w))).
Qed.

(** C8: [synchronize] assigns the timeout 50, makes one call of
    [read(16)] whose result it drops, then calls [read(8)] until a call
    returns 8 bytes.  It returns at the first such call, number [k], and
    then the port is the one those [k + 1] reads left with the timeout
    400 assigned; it returns in no other case, and while no call has
    returned 8 bytes it is still reading.  It never raises.  What it
    prints is the length of each result.  On a scripted port whose reads
    return a junk result, then short results, then 8 bytes, the calls
    made are those and the two assignments of the timeout, and the
    timeout is left at 400. *)
Theorem synchronize_spec (fuel : nat) (w : world P) :
  let p0 := (read 16 (set_timeout 50 (port w))).2 in
  (∀ k, (k < fuel)%nat → full_read k p0 → (∀ j, (j < k)%nat → ¬ full_read j p0) →
        synchronize fuel w =
          (Returned,
           mkWorld (set_timeout 400 (after_reads (S k) p0))
                   (terminal w ++ len_lines (S k) p0))) ∧
  ((∀ j, (j < fuel)%nat → ¬ full_read j p0) →
   synchronize fuel w =
     (Running, mkWorld (after_reads fuel p0) (terminal w ++ len_lines fuel p0))) ∧
  (∀ w', synchronize fuel w = (Returned, w') →
         ∃ k, (k < fuel)%nat ∧ full_read k p0 ∧
              (∀ j, (j < k)%nat → ¬ full_read j p0) ∧
              w' = mkWorld (set_timeout 400 (after_reads (S k) p0))
                           (terminal w ++ len_lines (S k) p0)) ∧
  (synchronize fuel w).1 ≠ Raised ∧
  (∀ junk pre f rest t cs out,
     Forall (fun c => (length c < 8)%nat) pre →
     length f = 8%nat →
     (length pre < fuel)%nat →
     synchronize fuel (mkWorld (mkScripted t (junk :: pre ++ f :: rest) cs) out) =
       (Returned,
        mkWorld (mkScripted (Some 400) rest
                   (cs ++ [SetTimeout 50; Read 16] ++
                    replicate (S (length pre)) (Read 8) ++ [SetTimeout 400]))
                (out ++ map (fun c => (stdout, LenLine (length c))) (pre ++ [f])))).
Proof.
  intros p0.
  rewrite synchronize_eq, synchronize_loop_eq. fold p0. cbn [port terminal].
  split; [|split; [|split; [|split]]].
  - intros k Hk Hfull Hfirst.
    by rewrite (proj2 (first_full_spec fuel k p0) (conj Hk (conj Hfull Hfirst))).
  - intros Hnone. by rewrite (proj2 (first_full_none fuel p0) Hnone).
  - intros w'. destruct (first_full fuel p0) as [k|] eqn:Hk; [|discriminate].
    intros [= <-]. apply first_full_spec in Hk as (Hlt & Hfull & Hfirst).
    by exists k.
  - by destruct (first_full fuel p0).
  - intros junk pre f rest t cs out. apply scripted_synchronize.
Qed.
End SynchronizerLoop.

Lemma synchronize_spec_witness :
  synchronize 3 sample_port =
    (Returned,
     mkWorld (mkScripted (Some 400) [frame_unknown; frame_V_DC_12]
                [SetTimeout 50; Read 16; Read 8; Read 8; Read 8; SetTimeout 400])
             [(stdout, LenLine 3); (stdout, LenLine 5); (stdout, LenLine 8)]).
Proof.
  pose proof (synchronize_spec 3 sample_port) as [Hret _]. cbn zeta in Hret.
  apply (Hret 2%nat); [lia | reflexivity |].
  intros [|[|j]] Hj Hfull; [discriminate Hfull | discriminate Hfull | lia].
Defined.



(** ** The driver loop *)

Section Driver.
Context {P : Type} `{SerialPort P}.

Lemma len_lines_not_decoded (k : nat) (p : P) :
  Forall (fun l : stream * line => is_decoded_line l.2 = false) (len_lines k p).
Proof. revert p. induction k; intros p; cbn [len_lines]; by constructor. Qed.

Lemma synchronize_lines (fuel : nat) (w : world P) :
  (synchronize fuel w).1 ≠ Raised ∧
  ∃ new, terminal (synchronize fuel w).2 = terminal w ++ new ∧
         Forall (fun l : stream * line => is_decoded_line l.2 = false) new.
Proof.
  rewrite synchronize_eq, synchronize_loop_eq. cbn [port terminal].
  destruct (first_full fuel _); cbn [fst snd terminal];
    (split; [done|]); eexists; (split; [reflexivity|]);
    apply len_lines_not_decoded.
Qed.

(** One iteration of the loop of [process] on a full read. *)
Lemma process_loop_full (fuel : nat) (args : Args) (w w' : world P) (a : bytes) :
  port_read 8 w = (a, w') →
  length a = 8%nat →
  process_loop (S fuel) args w =
    match process_frame args a with
    | None => (Raised, w')
    | Some (RawRecord ba mode negative numbers) =>
        process_loop fuel args (print stdout (RawLine ba mode negative numbers) w')
    | Some (UnknownMode mode value) =>
        process_loop fuel args (print stderr (UnknownModeLine mode value) w')
    | Some (Measurement value unit) =>
        match timestamp args with
        | None => (Raised, w')
        | Some ts =>
            process_loop fuel args
              (print stdout (ValueLine ts value (sep_of args) unit) w')
        end
    end.
Proof. intros Hread Hlen. cbn [process_loop]. by rewrite Hread, Hlen. Qed.

(** C2: when the loop of [process], not in raw mode, reads an 8-byte
    frame whose ModeKey is not in the table, the frame is decoded to an
    unknown mode with that key and the magnitude; nothing is raised; the
    iteration prints the diagnostic on the error stream and nothing else,
    and the loop goes on from the port as the read left it. *)
Theorem unknown_mode_continues (fuel : nat) (args : Args) (w w' : world P) (a : bytes) :
  raw args = false →
  port_read 8 w = (a, w') →
  length a = 8%nat →
  modes !! tobytes (mode_key a) = None →
  ∃ M, magnitude a = Some M ∧
       process_frame args a = Some (UnknownMode (mode_key a) M) ∧
       process_loop (S fuel) args w =
         process_loop fuel args (print stderr (UnknownModeLine (mode_key a) M) w').
Proof.
  intros Hraw Hread Hlen Hkey.
  destruct (process_frame_eq args a Hlen) as (M & negative & HM & _ & Hpf).
  rewrite Hraw, Hkey in Hpf. exists M. split; [exact HM|]. split; [exact Hpf|].
  by rewrite (process_loop_full fuel args w w' a Hread Hlen), Hpf.
Qed.

Lemma raw_frame (args : Args) (a : bytes) :
  raw args = true →
  length a = 8%nat →
  ∃ sign, getitem (bits_of a) 21 = Some sign ∧
          process_frame args a
          = Some (RawRecord (bits_of a) (mode_key a) sign (numbers_of a)).
Proof.
  intros Hraw Hlen.
  destruct (process_frame_eq args a Hlen) as (M & negative & _ & Hneg & Hpf).
  rewrite Hraw in Hpf. by exists negative.
Qed.

Lemma raw_process_loop (fuel : nat) (args : Args) (w : world P) :
  raw args = true →
  (process_loop fuel args w).1 = Running ∧
  ∃ new, terminal (process_loop fuel args w).2 = terminal w ++ new ∧
         Forall (fun l : stream * line => is_decoded_line l.2 = false) new.
Proof.
  intros Hraw. revert w. induction fuel as [|fuel IH]; intros w.
  { cbn. split; [done|]. exists []. by rewrite app_nil_r. }
  destruct (port_read 8 w) as [a w'] eqn:Hread.
  assert (terminal w' = terminal w) as Hterm.
  { unfold port_read in Hread. destruct (read 8 (port w)). by simplify_eq. }
  destruct (decide (length a = 8%nat)) as [Hlen|Hlen].
  - rewrite (process_loop_full fuel args w w' a Hread Hlen).
    destruct (raw_frame args a Hraw Hlen) as (sign & _ & ->).
    destruct (IH (print stdout (RawLine (bits_of a) (mode_key a) sign (numbers_of a)) w'))
      as (Hstatus & new & Hnew & Hall).
    split; [exact Hstatus|]. eexists. split.
    + rewrite Hnew. cbn [print terminal]. by rewrite Hterm, <- app_assoc.
    + by constructor.
  - cbn [process_loop]. rewrite Hread.
    destruct (Nat.eqb_spec (length a) 8) as [?|_]; [done|]. cbn [negb].
    destruct (synchronize_lines fuel (print stderr SyncLostLine w'))
      as (Hstatus & new & Hnew & Hall).
    destruct (synchronize fuel (print stderr SyncLostLine w')) as [[] w2];
      cbn [fst snd] in *; [|done|].
    + destruct (IH w2) as (Hstatus2 & new2 & Hnew2 & Hall2).
      split; [exact Hstatus2|]. eexists. split.
      * rewrite Hnew2, Hnew. cbn [print terminal].
        by rewrite Hterm, <- !app_assoc.
      * constructor; [done|]. by apply Forall_app.
    + split; [done|]. eexists. split.
      * rewrite Hnew. cbn [print terminal]. by rewrite Hterm, <- app_assoc.
      * by constructor.
Qed.

(** C10: in raw mode the body of the loop turns every 8-byte frame,
    whatever its ModeKey, into one raw record of the bit array, the key
    bits, the sign bit and the digit string, and the iteration prints
    that record and goes on; a run of [process] raises nothing and prints
    no measurement and no unknown-mode diagnostic. *)
Theorem raw_mode (fuel : nat) (args : Args) (w : world P) :
  raw args = true →
  (∀ a, length a = 8%nat →
        ∃ sign, getitem (bits_of a) 21 = Some sign ∧
                process_frame args a
                = Some (RawRecord (bits_of a) (mode_key a) sign (numbers_of a))) ∧
  (∀ a w', port_read 8 w = (a, w') → length a = 8%nat →
           ∃ sign, getitem (bits_of a) 21 = Some sign ∧
                   process_loop (S fuel) args w =
                     process_loop fuel args
                       (print stdout
                          (RawLine (bits_of a) (mode_key a) sign (numbers_of a)) w')) ∧
  (process fuel args w).1 = Running ∧
  ∃ new, terminal (process fuel args w).2 = terminal w ++ new ∧
         Forall (fun l : stream * line => is_decoded_line l.2 = false) new.
Proof.
  intros Hraw. split; [|split].
  - intros a Hlen. by apply raw_frame.
  - intros a w' Hread Hlen.
    destruct (raw_frame args a Hraw Hlen) as (sign & Hsign & Hpf).
    exists sign. split; [exact Hsign|].
    by rewrite (process_loop_full fuel args w w' a Hread Hlen), Hpf.
  - unfold process.
    destruct (synchronize_lines fuel w) as (Hstatus & new & Hnew & Hall).
    destruct (synchronize fuel w) as [[] w2]; cbn [fst snd] in *; [|done|].
    + destruct (raw_process_loop fuel args w2 Hraw) as (Hstatus2 & new2 & Hnew2 & Hall2).
      split; [exact Hstatus2|]. eexists. split.
      * rewrite Hnew2, Hnew. by rewrite <- app_assoc.
      * by apply Forall_app.
    + split; [done|]. by exists new.
Qed.
End Driver.

Lemma unknown_mode_continues_witness :
  ∃ M, magnitude frame_unknown = Some M ∧
       process_frame plain_args frame_unknown
       = Some (UnknownMode (mode_key frame_unknown) M) ∧
       process_loop 2 plain_args
         (mkWorld (mkScripted (Some 400) [frame_unknown; frame_V_DC] []) []) =
       process_loop 1 plain_args
         (print stderr (UnknownModeLine (mode_key frame_unknown) M)
            (mkWorld (mkScripted (Some 400) [frame_V_DC] [Read 8]) [])).
Proof.
  apply (unknown_mode_continues 1 plain_args
           (mkWorld (mkScripted (Some 400) [frame_unknown; frame_V_DC] []) [])
           (mkWorld (mkScripted (Some 400) [frame_V_DC] [Read 8]) [])
           frame_unknown); reflexivity.
Defined.

Lemma raw_mode_witness : (process 6 raw_args sample_port).1 = Running.
Proof.
  destruct (raw_mode 6 raw_args sample_port) as (_ & _ & Hstatus & _);
    [reflexivity | exact Hstatus].
Defined.

(** With [--unix-time] the first measured frame ends the run: the time
    stamp expression adds a string to a float. *)
Example unix_time_raises :
  (process 4 (mkArgs false false false true) sample_port).1 = Raised.
Proof. reflexivity. Qed.

(** * Further properties *)

(** ** Packing and unpacking bits *)

Lemma byte_of_bits_of_byte (c : byte) : byte_of_bits (bits_of_byte c) = c.
Proof.
  unfold byte_of_bits, bits_of_byte.
  destruct (Byte.to_bits c) as (b0 & b1 & b2 & b3 & b4 & b5 & b6 & b7) eqn:E.
  cbn [nth]. rewrite <- E. apply Byte.of_bits_to_bits.
Qed.

Lemma bits_of_byte_of_bits (l : list bool) :
  bits_of_byte (byte_of_bits l) =
    [nth 0 l false; nth 1 l false; nth 2 l false; nth 3 l false;
     nth 4 l false; nth 5 l false; nth 6 l false; nth 7 l false].
Proof. unfold bits_of_byte, byte_of_bits. by rewrite Byte.to_bits_of_bits. Qed.

Lemma bits_of_byte_length (c : byte) : length (bits_of_byte c) = 8%nat.
Proof. by destruct (bits_of_byte_8 c) as (? & ? & ? & ? & ? & ? & ? & ? & ->). Qed.

Lemma tobytes_chunks_frombytes (n : nat) (bs : bytes) :
  (length bs <= n)%nat → tobytes_chunks n (flat_map bits_of_byte bs) = bs.
Proof.
  revert n. induction bs as [|c bs IH]; intros n Hn.
  { by destruct n. }
  destruct n as [|n]; [cbn in Hn; lia|].
  cbn [flat_map].
  destruct (bits_of_byte_8 c) as (b0 & b1 & b2 & b3 & b4 & b5 & b6 & b7 & E).
  rewrite E. cbn [tobytes_chunks app take drop]. rewrite take_0, drop_0, <- E.
  rewrite byte_of_bits_of_byte, IH; [done | cbn in Hn; lia].
Qed.

Lemma frombytes_tobytes_chunks (n : nat) (ba : bitarray) :
  (length ba <= n)%nat →
  take (length ba) (flat_map bits_of_byte (tobytes_chunks n ba)) = ba.
Proof.
  revert ba. induction n as [|n IH]; intros ba Hn.
  { destruct ba; [done | cbn in Hn; lia]. }
  destruct ba as [|x0 ba]; [done|].
  cbn [tobytes_chunks flat_map]. rewrite bits_of_byte_of_bits.
  do 7 (destruct ba as [|? ba]; [by destruct n|]).
  cbn [take drop nth length app]. do 8 f_equal.
  apply IH. cbn in Hn. lia.
Qed.

(** X1: packing the bits of a byte string gives the byte string back,
    and unpacking the bytes a bit array was packed into gives the bit array
    back, followed by its zero padding; so two bit arrays of one length
    have the same bytes only if they are equal, and two frames are looked
    up under the same key of [modes] only if their ModeKeys agree. *)
Theorem tobytes_frombytes (bs : bytes) (ba ba' : bitarray) :
  tobytes (frombytes [] bs) = bs ∧
  take (length ba) (frombytes [] (tobytes ba)) = ba ∧
  (length ba = length ba' → tobytes ba = tobytes ba' → ba = ba') ∧
  (∀ a a', length a = 8%nat → length a' = 8%nat →
           tobytes (mode_key a) = tobytes (mode_key a') → mode_key a = mode_key a').
Proof.
  assert (∀ l, take (length l) (frombytes [] (tobytes l)) = l) as Hround.
  { intros l. unfold frombytes, tobytes. cbn [app].
    by apply frombytes_tobytes_chunks. }
  assert (∀ l l', length l = length l' → tobytes l = tobytes l' → l = l') as Hinj.
  { intros l l' Hlen Heq. rewrite <- (Hround l), <- (Hround l'). by rewrite Heq, Hlen. }
  split; [|split; [apply Hround|split; [apply Hinj|]]].
  - unfold tobytes, frombytes. cbn [app]. apply tobytes_chunks_frombytes.
    induction bs as [|c bs IH]; [done|]. cbn [flat_map].
    rewrite length_app, bits_of_byte_length. cbn. lia.
  - intros a a' Hlen Hlen'. apply Hinj. unfold mode_key.
    destruct (bits_of_24 a Hlen)
      as (x0 & x1 & x2 & x3 & x4 & x5 & x6 & x7 & x8 & x9 & x10 & x11 & x12
          & x13 & x14 & x15 & x16 & x17 & x18 & x19 & x20 & x21 & x22 & x23 & ->).
    destruct (bits_of_24 a' Hlen')
      as (y0 & y1 & y2 & y3 & y4 & y5 & y6 & y7 & y8 & y9 & y10 & y11 & y12
          & y13 & y14 & y15 & y16 & y17 & y18 & y19 & y20 & y21 & y22 & y23 & ->).
    reflexivity.
Qed.

(** ** The mode table *)

(** X2: the entry [modes] holds for the ModeKey of a frame is the one
    whose literal in the source spells the nine key bits, index 3 first;
    no literal is malformed and no two rows share a key. *)
Theorem modes_by_pattern (a : bytes) (m : Mode) :
  length a = 8%nat →
  (modes !! tobytes (mode_key a) = Some m ↔
   ∃ s, (s, m) ∈ mode_entries ∧ bitarray_of_string s = Some (mode_key a)) ∧
  Forall (fun e : string * Mode => is_Some (bit_bytes e.1)) mode_entries ∧
  NoDup (omap (fun e : string * Mode => bit_bytes e.1) mode_entries) ∧
  size modes = length mode_entries.
Proof.
  intros Hlen. split; [|split; [|split]].
  - split.
    + intros Hm. name_bits a Hlen.
      apply known_mode_key in Hm. unfold mode_bits in Hm.
      apply list_elem_of_omap in Hm as ([s m'] & Hin & Hs). cbn [fst snd] in Hs.
      destruct (bitarray_of_string s) as [k|] eqn:Hk; [|discriminate].
      cbn in Hs. injection Hs as <- <-. by exists s.
    + intros (s & Hin & Hs).
      pose proof mode_bits_lookup as Hall. rewrite Forall_forall in Hall.
      apply (Hall (mode_key a, m)). unfold mode_bits.
      apply list_elem_of_omap. exists (s, m). split; [done|].
      cbn [fst snd]. by rewrite Hs.
  - apply (bool_decide_unpack _). by vm_compute.
  - apply (bool_decide_unpack _). by vm_compute.
  - reflexivity.
Qed.

Lemma modes_by_pattern_witness :
  modes !! tobytes (mode_key frame_V_DC) = Some (mkMode "V DC" 10000) ↔
  ∃ s, (s, mkMode "V DC" 10000) ∈ mode_entries ∧
       bitarray_of_string s = Some (mode_key frame_V_DC).
Proof.
  exact (proj1 (modes_by_pattern frame_V_DC (mkMode "V DC" 10000) eq_refl)).
Defined.

(** X3: a frame has a known ModeKey exactly when its key bits 3 to 7 are
    0 0 1 0 1 and its key bits 8 to 11 are not 1 1 0 1: of the 512 keys,
    the fifteen known ones are 00101 followed by any four bits but 1101. *)
Theorem known_key_shape (a : bytes) :
  length a = 8%nat →
  (is_Some (modes !! tobytes (mode_key a)) ↔
   take 5 (mode_key a) = [false; false; true; false; true] ∧
   drop 5 (mode_key a) ≠ [true; true; false; true]).
Proof.
  intros Hlen. unfold mode_key.
  destruct (bits_of_24 a Hlen)
    as (x0 & x1 & x2 & x3 & x4 & x5 & x6 & x7 & x8 & x9 & x10 & x11 & x12
        & x13 & x14 & x15 & x16 & x17 & x18 & x19 & x20 & x21 & x22 & x23 & ->).
  cbn [slice take drop Nat.sub].
  destruct x3, x4, x5, x6, x7, x8, x9, x10, x11;
    match goal with
    | |- context [modes !! ?k] =>
        let v := eval vm_compute in (modes !! k) in change (modes !! k) with v
    end;
    split;
    first [ by intros [? [=]]
          | by intros [[=] _]
          | by intros [_ []]
          | intros _; split; [reflexivity | discriminate]
          | intros _; eexists; reflexivity ].
Qed.

Lemma known_key_shape_witness :
  is_Some (modes !! tobytes (mode_key frame_V_DC)) ↔
  take 5 (mode_key frame_V_DC) = [false; false; true; false; true] ∧
  drop 5 (mode_key frame_V_DC) ≠ [true; true; false; true].
Proof. exact (known_key_shape frame_V_DC eq_refl). Defined.

(** ** The decoder, mode by mode *)

(** Open the frame [a] of known key: its magnitude, its bits by name and
    its table entry; the goal is left with the fifteen entries to check. *)
Ltac closed_form args a Hraw Hlen Hm :=
  let M := fresh "M" in
  let negative := fresh "negative" in
  let HM := fresh "HM" in
  let Hneg := fresh "Hneg" in
  let Hpf := fresh "Hpf" in
  destruct (process_frame_eq args a Hlen) as (M & negative & HM & Hneg & Hpf);
  rewrite Hraw, Hm in Hpf;
  unfold decodes_as; exists M; eexists; eexists;
  rewrite Hpf, (truediv_mode _ _ M Hm); clear Hpf;
  pose proof Hm as Hkey;
  name_bits a Hlen;
  repeat match goal with
         | H : Some _ = Some _ |- _ => injection H as ->
         end;
  do 3 eexists;
  split; [exact HM|]; split; [exact Hkey|]; do 4 (split; [reflexivity|]);
  clear Hkey; table_cases Hm.

(** X4: Ohm (lines 113-119): bit 2 makes the reading M Ohm and divides by
    100; otherwise bit 1 makes it k Ohm and divides by 10; bit 2 wins when
    both are set.  The sign bit is kept. *)
Theorem Ohm_ranges (args : Args) (a : bytes) (m : Mode) (b1 b2 : bool) :
  raw args = false →
  length a = 8%nat →
  modes !! tobytes (mode_key a) = Some m →
  unit m = "Ohm" →
  getitem (bits_of a) 1 = Some b1 →
  getitem (bits_of a) 2 = Some b2 →
  decodes_as args a
    (fun v => if b2 then fdiv v 100 else if b1 then fdiv v 10 else v) true
    (if b2 then "M Ohm" else if b1 then "k Ohm" else "Ohm").
Proof.
  intros Hraw Hlen Hm Hunit H1 H2.
  closed_form args a Hraw Hlen Hm; try discriminate Hunit.
  destruct x0, x13, negative, b1, b2; reflexivity.
Qed.

Lemma Ohm_ranges_witness :
  process_frame plain_args frame_Ohm_2 = Some (Measurement (Num 0.1234%float) "M Ohm").
Proof.
  destruct (Ohm_ranges plain_args frame_Ohm_2 (mkMode "Ohm" 100) false true)
    as (M & m & v & b0 & sign & b13 & HM & Hm & Hv & H0 & H21 & H13 & Hpf);
    [reflexivity..|].
  vm_compute in HM. injection HM as <-.
  vm_compute in Hm. injection Hm as <-.
  vm_compute in Hv. injection Hv as <-.
  vm_compute in H0. injection H0 as <-.
  vm_compute in H21. injection H21 as <-.
  vm_compute in H13. injection H13 as <-.
  exact Hpf.
Defined.

(** X5: percent (lines 121-129): bit 14 makes the reading nF and divides
    by 1000, and the nF rule that follows then applies to it: with bit 2
    as well the reading is uF and is multiplied by 10. *)
Theorem percent_capacitance (args : Args) (a : bytes) (m : Mode) (b2 b14 : bool) :
  raw args = false →
  length a = 8%nat →
  modes !! tobytes (mode_key a) = Some m →
  unit m = "%" →
  getitem (bits_of a) 2 = Some b2 →
  getitem (bits_of a) 14 = Some b14 →
  decodes_as args a
    (fun v => if b14 then (if b2 then fmul (fdiv v 1000) 10 else fdiv v 1000) else v)
    true
    (if b14 then (if b2 then "uF" else "nF") else "%").
Proof.
  intros Hraw Hlen Hm Hunit H2 H14.
  closed_form args a Hraw Hlen Hm; try discriminate Hunit.
  destruct x0, x13, negative, b2, b14; reflexivity.
Qed.

Lemma percent_capacitance_witness :
  ∃ v, truediv 1234 100 = Some v ∧
       process_frame plain_args frame_percent_2_14
       = Some (Measurement (Num (fmul (fdiv v 1000) 10)) "uF").
Proof.
  destruct (percent_capacitance plain_args frame_percent_2_14 (mkMode "%" 100) true true)
    as (M & m & v & b0 & sign & b13 & HM & Hm & Hv & H0 & H21 & H13 & Hpf);
    [reflexivity..|].
  vm_compute in HM. injection HM as <-.
  vm_compute in Hm. injection Hm as <-.
  vm_compute in H0. injection H0 as <-.
  vm_compute in H21. injection H21 as <-.
  vm_compute in H13. injection H13 as <-.
  exists v. split; [exact Hv | exact Hpf].
Defined.

(** X6: nF (lines 126-129): bit 2 makes the reading uF and multiplies it
    by 10. *)
Theorem nF_micro (args : Args) (a : bytes) (m : Mode) (b2 : bool) :
  raw args = false →
  length a = 8%nat →
  modes !! tobytes (mode_key a) = Some m →
  unit m = "nF" →
  getitem (bits_of a) 2 = Some b2 →
  decodes_as args a (fun v => if b2 then fmul v 10 else v) true
    (if b2 then "uF" else "nF").
Proof.
  intros Hraw Hlen Hm Hunit H2.
  closed_form args a Hraw Hlen Hm; try discriminate Hunit.
  destruct x0, x13, negative, b2; reflexivity.
Qed.

Lemma nF_micro_witness :
  ∃ v, truediv 1234 100 = Some v ∧
       process_frame plain_args frame_nF_2 = Some (Measurement (Num (fmul v 10)) "uF").
Proof.
  destruct (nF_micro plain_args frame_nF_2 (mkMode "nF" 100) true)
    as (M & m & v & b0 & sign & b13 & HM & Hm & Hv & H0 & H21 & H13 & Hpf);
    [reflexivity..|].
  vm_compute in HM. injection HM as <-.
  vm_compute in Hm. injection Hm as <-.
  vm_compute in H0. injection H0 as <-.
  vm_compute in H21. injection H21 as <-.
  vm_compute in H13. injection H13 as <-.
  exists v. split; [exact Hv | exact Hpf].
Defined.

(** X7: V AC (lines 131-134 and 149-151): the reading is never negated;
    bit 1 multiplies it by 100; bit 12 only renames the unit to mA DC. *)
Theorem V_AC_reading (args : Args) (a : bytes) (m : Mode) (b1 b12 : bool) :
  raw args = false →
  length a = 8%nat →
  modes !! tobytes (mode_key a) = Some m →
  unit m = "V AC" →
  getitem (bits_of a) 1 = Some b1 →
  getitem (bits_of a) 12 = Some b12 →
  decodes_as args a (fun v => if b1 then fmul v 100 else v) false
    (if b12 then "mA DC" else "V AC").
Proof.
  intros Hraw Hlen Hm Hunit H1 H12.
  closed_form args a Hraw Hlen Hm; try discriminate Hunit.
  destruct x0, x13, negative, b1, b12; reflexivity.
Qed.

Lemma V_AC_reading_witness :
  getitem (bits_of frame_V_AC_1) 21 = Some true ∧
  process_frame plain_args frame_V_AC_1 = Some (Measurement (Num 12.34%float) "V AC").
Proof.
  destruct (V_AC_reading plain_args frame_V_AC_1 (mkMode "V AC" 10000) true false)
    as (M & m & v & b0 & sign & b13 & HM & Hm & Hv & H0 & H21 & H13 & Hpf);
    [reflexivity..|].
  vm_compute in HM. injection HM as <-.
  vm_compute in Hm. injection Hm as <-.
  vm_compute in Hv. injection Hv as <-.
  vm_compute in H0. injection H0 as <-.
  vm_compute in H21. injection H21 as <-.
  vm_compute in H13. injection H13 as <-.
  split; [reflexivity | exact Hpf].
Defined.

(** X8: the three rules on bit 12 (lines 136-147): it turns mV DC into
    A AC, divided by 10 and never negated; V DC into mA AC DC, multiplied
    by 10; mV AC into A AC DC, divided by 10.  With bit 12 cleared the
    three modes are read as the table has them. *)
Theorem bit_12_rules (args : Args) (a : bytes) (m : Mode) (b12 : bool) :
  raw args = false →
  length a = 8%nat →
  modes !! tobytes (mode_key a) = Some m →
  getitem (bits_of a) 12 = Some b12 →
  (unit m = "mV DC" →
   decodes_as args a (fun v => if b12 then fdiv v 10 else v) (negb b12)
     (if b12 then "A AC" else "mV DC")) ∧
  (unit m = "V DC" →
   decodes_as args a (fun v => if b12 then fmul v 10 else v) true
     (if b12 then "mA AC DC" else "V DC")) ∧
  (unit m = "mV AC" →
   decodes_as args a (fun v => if b12 then fdiv v 10 else v) true
     (if b12 then "A AC DC" else "mV AC")).
Proof.
  intros Hraw Hlen Hm H12.
  split; [|split]; intros Hunit;
    closed_form args a Hraw Hlen Hm; try discriminate Hunit;
    destruct x0, x13, negative, b12; reflexivity.
Qed.

Lemma bit_12_rules_witness :
  process_frame plain_args frame_mV_AC_12
  = Some (Measurement (Num 0.1234%float) "A AC DC").
Proof.
  destruct (bit_12_rules plain_args frame_mV_AC_12 (mkMode "mV AC" 1000) true)
    as (_ & _ & Hrule); [reflexivity..|].
  destruct Hrule
    as (M & m & v & b0 & sign & b13 & HM & Hm & Hv & H0 & H21 & H13 & Hpf);
    [reflexivity|].
  vm_compute in HM. injection HM as <-.
  vm_compute in Hm. injection Hm as <-.
  vm_compute in Hv. injection Hv as <-.
  vm_compute in H0. injection H0 as <-.
  vm_compute in H21. injection H21 as <-.
  vm_compute in H13. injection H13 as <-.
  exact Hpf.
Defined.

(** X9: dBm (lines 153-156): with the sign bit set the reading becomes
    ma AC, divided by 10; it is never negated. *)
Theorem dBm_sign (args : Args) (a : bytes) (m : Mode) (sign : bool) :
  raw args = false →
  length a = 8%nat →
  modes !! tobytes (mode_key a) = Some m →
  unit m = "dBm" →
  getitem (bits_of a) 21 = Some sign →
  decodes_as args a (fun v => if sign then fdiv v 10 else v) false
    (if sign then "ma AC" else "dBm").
Proof.
  intros Hraw Hlen Hm Hunit H21.
  closed_form args a Hraw Hlen Hm; try discriminate Hunit.
  destruct x0, x13, sign; reflexivity.
Qed.

Lemma dBm_sign_witness :
  process_frame plain_args frame_dBm_negative
  = Some (Measurement (Num 1.234%float) "ma AC").
Proof.
  destruct (dBm_sign plain_args frame_dBm_negative (mkMode "dBm" 100) true)
    as (M & m & v & b0 & sign & b13 & HM & Hm & Hv & H0 & H21 & H13 & Hpf);
    [reflexivity..|].
  vm_compute in HM. injection HM as <-.
  vm_compute in Hm. injection Hm as <-.
  vm_compute in Hv. injection Hv as <-.
  vm_compute in H0. injection H0 as <-.
  vm_compute in H21. injection H21 as <-.
  vm_compute in H13. injection H13 as <-.
  exact Hpf.
Defined.

(** X10: the seven modes no rule rewrites: uA AC is never negated, and
    mV AC DC, VF, uA DC, A DC, Hz and uA AC DC keep the sign; whatever the
    bits 1, 2, 12 and 14 are, the unit is the one of the table and the
    value is not rescaled. *)
Theorem plain_modes (args : Args) (a : bytes) (m : Mode) :
  raw args = false →
  length a = 8%nat →
  modes !! tobytes (mode_key a) = Some m →
  (unit m = "uA AC" → decodes_as args a (fun v => v) false "uA AC") ∧
  (unit m ∈ ["mV AC DC"; "VF"; "uA DC"; "A DC"; "Hz"; "uA AC DC"] →
   decodes_as args a (fun v => v) true (unit m)).
Proof.
  intros Hraw Hlen Hm.
  split; intros Hunit;
    closed_form args a Hraw Hlen Hm;
    try discriminate Hunit;
    try (by (rewrite !elem_of_cons, elem_of_nil in Hunit; destruct_or!));
    destruct x0, x13, negative; reflexivity.
Qed.

Lemma plain_modes_witness :
  process_frame plain_args frame_Hz = Some (Measurement (Num (-1.234)%float) "Hz").
Proof.
  destruct (plain_modes plain_args frame_Hz (mkMode "Hz" 1000))
    as (_ & Hrule); [reflexivity..|].
  destruct Hrule
    as (M & m & v & b0 & sign & b13 & HM & Hm & Hv & H0 & H21 & H13 & Hpf);
    [repeat constructor|].
  vm_compute in HM. injection HM as <-.
  vm_compute in Hm. injection Hm as <-.
  vm_compute in Hv. injection Hv as <-.
  vm_compute in H0. injection H0 as <-.
  vm_compute in H21. injection H21 as <-.
  vm_compute in H13. injection H13 as <-.
  exact Hpf.
Defined.

(** ** What the decoder reads and what it prints *)

Lemma process_frame_total (args : Args) (a : bytes) :
  length a = 8%nat → is_Some (process_frame args a).
Proof.
  intros Hlen.
  destruct (process_frame_eq args a Hlen) as (M & negative & _ & _ & ->).
  destruct (raw args); [done|].
  destruct (modes !! tobytes (mode_key a)) as [m|] eqn:Hm; [|done].
  pose proof (bits_of_length a Hlen) as Hbits.
  destruct (measure_total _ Hbits _ m M negative Hm) as [st ->].
  by destruct (overflow_total _ Hbits st) as [value ->].
Qed.

(** X11: in decoded mode the outcome of a frame depends on its five digit
    bytes and on the bits 0 to 14 and 21 only: the bits 15 to 20, 22 and
    23 are never read. *)
Theorem unread_bits (args : Args) (a a' : bytes) :
  raw args = false →
  length a = 8%nat →
  length a' = 8%nat →
  slice a' 3 8 = slice a 3 8 →
  Forall (fun i => getitem (bits_of a') i = getitem (bits_of a) i) decoder_bits →
  process_frame args a' = process_frame args a.
Proof.
  intros Hraw Hlen Hlen' Hdigits Hbits.
  destruct (process_frame_eq args a Hlen) as (M & negative & HM & Hneg & ->).
  destruct (process_frame_eq args a' Hlen') as (M' & negative' & HM' & Hneg' & ->).
  rewrite (magnitude_same_digits _ _ Hdigits), HM in HM'. injection HM' as <-.
  rewrite Hraw. cbn [decoder_bits seq app] in Hbits.
  repeat match goal with
         | H : Forall _ (_ :: _) |- _ =>
             let E := fresh "E" in apply Forall_cons in H as [E H]
         end.
  clear Hbits. name_bits a Hlen. name_bits a' Hlen'. simplify_eq.
  destruct (modes !! tobytes _); reflexivity.
Qed.

Lemma unread_bits_witness :
  process_frame plain_args frame_V_DC_noise = process_frame plain_args frame_V_DC.
Proof.
  apply (unread_bits plain_args frame_V_DC frame_V_DC_noise);
    [reflexivity | reflexivity | reflexivity | reflexivity |].
  apply (bool_decide_unpack _). vm_compute. exact I.
Defined.

Section UnitsKept.
Variable ba : bitarray.

(** Each rule leaves a unit of [all_units] when it finds one. *)
Ltac keeps_unit r :=
  let st := fresh "st" in
  let st' := fresh "st'" in
  let Hu := fresh "Hu" in
  let Hr := fresh "Hr" in
  intros st st' Hu Hr; unfold r, getitem in Hr;
  repeat match type of Hr with
         | context [if ?c then _ else _] => destruct c
         | context [match ?o with Some _ => _ | None => _ end] =>
             destruct o; [|discriminate Hr]
         end;
  injection Hr as <-; first [exact Hu | vm_compute; repeat constructor].

Lemma rule_Ohm_unit st st' :
  v_unit st ∈ all_units → rule_Ohm ba st = Some st' → v_unit st' ∈ all_units.
Proof. revert st st'. keeps_unit rule_Ohm. Qed.

Lemma rule_percent_unit st st' :
  v_unit st ∈ all_units → rule_percent ba st = Some st' → v_unit st' ∈ all_units.
Proof. revert st st'. keeps_unit rule_percent. Qed.

Lemma rule_nF_unit st st' :
  v_unit st ∈ all_units → rule_nF ba st = Some st' → v_unit st' ∈ all_units.
Proof. revert st st'. keeps_unit rule_nF. Qed.

Lemma rule_V_AC_unit st st' :
  v_unit st ∈ all_units → rule_V_AC ba st = Some st' → v_unit st' ∈ all_units.
Proof. revert st st'. keeps_unit rule_V_AC. Qed.

Lemma rule_mV_DC_unit st st' :
  v_unit st ∈ all_units → rule_mV_DC ba st = Some st' → v_unit st' ∈ all_units.
Proof. revert st st'. keeps_unit rule_mV_DC. Qed.

Lemma rule_V_DC_unit st st' :
  v_unit st ∈ all_units → rule_V_DC ba st = Some st' → v_unit st' ∈ all_units.
Proof. revert st st'. keeps_unit rule_V_DC. Qed.

Lemma rule_mV_AC_unit st st' :
  v_unit st ∈ all_units → rule_mV_AC ba st = Some st' → v_unit st' ∈ all_units.
Proof. revert st st'. keeps_unit rule_mV_AC. Qed.

Lemma rule_V_AC_12_unit st st' :
  v_unit st ∈ all_units → rule_V_AC_12 ba st = Some st' → v_unit st' ∈ all_units.
Proof. revert st st'. keeps_unit rule_V_AC_12. Qed.

Lemma rule_dBm_unit st st' :
  v_unit st ∈ all_units → rule_dBm st = Some st' → v_unit st' ∈ all_units.
Proof. revert st st'. keeps_unit rule_dBm. Qed.

Lemma rule_uA_AC_unit st st' :
  v_unit st ∈ all_units → rule_uA_AC st = Some st' → v_unit st' ∈ all_units.
Proof. revert st st'. keeps_unit rule_uA_AC. Qed.

Lemma rules_unit st st' :
  v_unit st ∈ all_units → rules ba st = Some st' → v_unit st' ∈ all_units.
Proof.
  intros Hu Hr. unfold rules in Hr.
  destruct (rule_Ohm ba st) as [s1|] eqn:E1; [|discriminate Hr].
  destruct (rule_percent ba s1) as [s2|] eqn:E2; [|discriminate Hr].
  destruct (rule_nF ba s2) as [s3|] eqn:E3; [|discriminate Hr].
  destruct (rule_V_AC ba s3) as [s4|] eqn:E4; [|discriminate Hr].
  destruct (rule_mV_DC ba s4) as [s5|] eqn:E5; [|discriminate Hr].
  destruct (rule_V_DC ba s5) as [s6|] eqn:E6; [|discriminate Hr].
  destruct (rule_mV_AC ba s6) as [s7|] eqn:E7; [|discriminate Hr].
  destruct (rule_V_AC_12 ba s7) as [s8|] eqn:E8; [|discriminate Hr].
  destruct (rule_dBm s8) as [s9|] eqn:E9; [|discriminate Hr].
  eapply rule_uA_AC_unit; [|exact Hr].
  eapply rule_dBm_unit; [|exact E9].
  eapply rule_V_AC_12_unit; [|exact E8].
  eapply rule_mV_AC_unit; [|exact E7].
  eapply rule_V_DC_unit; [|exact E6].
  eapply rule_mV_DC_unit; [|exact E5].
  eapply rule_V_AC_unit; [|exact E4].
  eapply rule_nF_unit; [|exact E3].
  eapply rule_percent_unit; [|exact E2].
  eapply rule_Ohm_unit; [exact Hu | exact E1].
Qed.

Lemma measure_unit m M negative st :
  unit m ∈ all_units → measure ba m M negative = Some st → v_unit st ∈ all_units.
Proof.
  intros Hu Hm. unfold measure in Hm.
  destruct (truediv M (divisor m)) as [v|]; [|discriminate Hm].
  destruct (rules ba _) as [s1|] eqn:E1; [|discriminate Hm].
  apply rules_unit in E1; [|exact Hu].
  unfold times_ten in Hm. destruct (getitem ba 0) as [[]|]; [| |discriminate Hm];
    injection Hm as <-; unfold apply_sign; by destruct (v_negative _).
Qed.
End UnitsKept.

Lemma modes_units : map_Forall (fun _ m => unit m ∈ all_units) modes.
Proof. apply (bool_decide_unpack _). by vm_compute. Qed.

Lemma measurement_unit (args : Args) (a : bytes) (value : pyvalue) (u : string) :
  length a = 8%nat →
  process_frame args a = Some (Measurement value u) →
  raw args = false ∧ u ∈ all_units ∧
  ∃ b13, getitem (bits_of a) 13 = Some b13 ∧
         if b13 then value = OVERFLOW else ∃ x, value = Num x.
Proof.
  intros Hlen Hpf.
  destruct (process_frame_eq args a Hlen) as (M & negative & _ & _ & Heq).
  rewrite Heq in Hpf. clear Heq.
  destruct (raw args); [discriminate Hpf|]. split; [done|].
  destruct (modes !! tobytes (mode_key a)) as [m|] eqn:Hm; [|discriminate Hpf].
  destruct (measure (bits_of a) m M negative) as [st|] eqn:Hst; [|discriminate Hpf].
  apply measure_unit in Hst; [|exact (modes_units _ _ Hm)].
  unfold overflow in Hpf.
  destruct (getitem (bits_of a) 13) as [b13|]; [|discriminate Hpf].
  destruct b13; injection Hpf as <- <-; (split; [exact Hst|]);
    eexists; (split; [reflexivity|]); [reflexivity | by eexists].
Qed.

(** X12: every frame the decoder measures gets one of the 23 unit labels
    of [all_units], and its value is the string OVERFLOW exactly when bit
    13 is set and a number otherwise; a measurement is never produced in
    raw mode. *)
Theorem measured_units (args : Args) (a : bytes) (value : pyvalue) (u : string) :
  length a = 8%nat →
  process_frame args a = Some (Measurement value u) →
  raw args = false ∧
  u ∈ all_units ∧
  (getitem (bits_of a) 13 = Some true ↔ value = OVERFLOW) ∧
  (getitem (bits_of a) 13 = Some false ↔ ∃ x, value = Num x).
Proof.
  intros Hlen Hpf.
  destruct (measurement_unit args a value u Hlen Hpf)
    as (Hraw & Hu & b13 & H13 & Hvalue).
  split; [exact Hraw|]. split; [exact Hu|]. rewrite H13.
  destruct b13.
  - subst value. split; split; try done. by intros [x [=]].
  - destruct Hvalue as [x ->]. split; split; try done. by eexists.
Qed.

Lemma measured_units_witness :
  "uF" ∈ all_units ∧
  (getitem (bits_of frame_percent_2_14) 13 = Some false ↔
   ∃ x, Num (fmul (fdiv 12.34%float 1000) 10) = Num x).
Proof.
  destruct (measured_units plain_args frame_percent_2_14
              (Num (fmul (fdiv 12.34%float 1000) 10)) "uF")
    as (_ & Hu & _ & Hnum); [reflexivity | reflexivity |].
  split; [exact Hu | exact Hnum].
Defined.

(** ** Runs of [process] *)

Section Runs.
Context {P : Type} `{SerialPort P}.

Lemma port_read_terminal (n : nat) (w w' : world P) (a : bytes) :
  port_read n w = (a, w') → terminal w' = terminal w.
Proof.
  unfold port_read. destruct (read n (port w)). by intros [= <- <-].
Qed.

Lemma process_loop_status (fuel : nat) (args : Args) (w : world P) :
  (process_loop fuel args w).1 ≠ Returned ∧
  (unix_time args = false → (process_loop fuel args w).1 = Running).
Proof.
  revert w. induction fuel as [|fuel IH]; intros w; [done|].
  destruct (port_read 8 w) as [a w'] eqn:Hread.
  destruct (decide (length a = 8%nat)) as [Hlen|Hlen].
  - rewrite (process_loop_full fuel args w w' a Hread Hlen).
    destruct (process_frame_total args a Hlen) as [[| |] ->]; [apply IH..|].
    unfold timestamp. destruct (unix_time args); [done|].
    destruct (iso_time args); apply IH.
  - cbn [process_loop]. rewrite Hread.
    destruct (Nat.eqb_spec (length a) 8) as [?|_]; [done|]. cbn [negb].
    destruct (synchronize_lines fuel (print stderr SyncLostLine w')) as [Hstatus _].
    destruct (synchronize fuel (print stderr SyncLostLine w')) as [[] w2];
      cbn [fst snd] in *; [apply IH | done | done].
Qed.

(** X13: [process] never returns: a run is still going when its fuel is
    spent, or has raised; apart from what the port itself may raise, it
    raises only with [--unix-time] and without [--raw]. *)
Theorem process_never_returns (fuel : nat) (args : Args) (w : world P) :
  (process fuel args w).1 ≠ Returned ∧
  ((process fuel args w).1 = Raised → unix_time args = true ∧ raw args = false).
Proof.
  assert ((process fuel args w).1 ≠ Returned ∧
          (unix_time args = false → (process fuel args w).1 = Running)) as [Hret Hrun].
  { unfold process.
    destruct (synchronize_lines fuel w) as [Hstatus _].
    destruct (synchronize fuel w) as [[] w2]; cbn [fst snd] in *;
      [apply process_loop_status | done | done]. }
  split; [exact Hret|]. intros Hraised. split.
  - destruct (unix_time args); [done|]. rewrite Hrun in Hraised; done.
  - destruct (raw args) eqn:Hraw; [|done].
    unfold process in Hraised.
    destruct (synchronize_lines fuel w) as [Hstatus _].
    destruct (synchronize fuel w) as [[] w2]; cbn [fst snd] in *; [|done|done].
    destruct (raw_process_loop fuel args w2 Hraw) as [Hrunning _].
    rewrite Hrunning in Hraised. done.
Qed.

(** X14: when the loop, in decoded mode, reads an 8-byte frame with a
    known key, the frame is measured; with [--unix-time] the run then ends
    with an exception, nothing being printed for the frame, whether or not
    [--iso-time] is given; otherwise one line is printed on the standard
    output, with the time stamp if [--iso-time] is given, the value, a
    comma with [--csv] and a tab without, and the unit, and the loop goes
    on. *)
Theorem known_frame_printed (fuel : nat) (args : Args) (w w' : world P)
    (a : bytes) (m : Mode) :
  raw args = false →
  port_read 8 w = (a, w') →
  length a = 8%nat →
  modes !! tobytes (mode_key a) = Some m →
  ∃ value u,
    process_frame args a = Some (Measurement value u) ∧
    process_loop (S fuel) args w =
      if unix_time args then (Raised, w')
      else process_loop fuel args
             (print stdout
                (ValueLine (if iso_time args then IsoStamp else NoStamp) value
                   (if csv args then "," else String (ascii_of_nat 9) EmptyString) u)
                w').
Proof.
  intros Hraw Hread Hlen Hm.
  destruct (process_frame_eq args a Hlen) as (M & negative & _ & _ & Hpf).
  rewrite Hraw, Hm in Hpf.
  pose proof (bits_of_length a Hlen) as Hbits.
  destruct (measure_total _ Hbits _ m M negative Hm) as [st Hst].
  destruct (overflow_total _ Hbits st) as [value Hvalue].
  rewrite Hst, Hvalue in Hpf. exists value, (v_unit st). split; [exact Hpf|].
  rewrite (process_loop_full fuel args w w' a Hread Hlen), Hpf.
  unfold timestamp, sep_of.
  by destruct (unix_time args), (iso_time args), (csv args).
Qed.

(** X15: when the loop reads fewer than 8 bytes (lines 80-84) it prints
    the loss of synchronisation on the error stream and synchronises again:
    the bytes read are not decoded, and neither are the result of the
    16-byte read and the results of the 8-byte reads up to and including
    the first that returns 8 bytes; the loop goes on with the read after
    that one.  While no read returns 8 bytes the run stays in
    [synchronize]. *)
Theorem desync_recovery (fuel : nat) (args : Args) (w w1 : world P) (a : bytes) :
  port_read 8 w = (a, w1) →
  length a ≠ 8%nat →
  let p0 := (read 16 (set_timeout 50 (port w1))).2 in
  (∀ k, (k < fuel)%nat → full_read k p0 → (∀ j, (j < k)%nat → ¬ full_read j p0) →
        process_loop (S fuel) args w =
          process_loop fuel args
            (mkWorld (set_timeout 400 (after_reads (S k) p0))
                     (terminal w ++ (stderr, SyncLostLine) :: len_lines (S k) p0))) ∧
  ((∀ j, (j < fuel)%nat → ¬ full_read j p0) →
   process_loop (S fuel) args w =
     (Running,
      mkWorld (after_reads fuel p0)
              (terminal w ++ (stderr, SyncLostLine) :: len_lines fuel p0))).
Proof.
  intros Hread Hlen p0.
  pose proof (port_read_terminal _ _ _ _ Hread) as Hterm.
  assert (process_loop (S fuel) args w =
            match synchronize_loop fuel
                    (mkWorld p0 (terminal w ++ [(stderr, SyncLostLine)])) with
            | (Returned, w2) => process_loop fuel args w2
            | r => r
            end) as ->.
  { cbn [process_loop]. rewrite Hread.
    destruct (Nat.eqb_spec (length a) 8) as [?|_]; [done|]. cbn [negb].
    rewrite synchronize_eq. unfold print. cbn [port terminal]. by rewrite Hterm. }
  rewrite synchronize_loop_eq. cbn [port terminal]. split.
  - intros k Hk Hfull Hfirst.
    rewrite (proj2 (first_full_spec fuel k p0) (conj Hk (conj Hfull Hfirst))).
    by rewrite <- app_assoc.
  - intros Hnone. rewrite (proj2 (first_full_none fuel p0) Hnone).
    by rewrite <- app_assoc.
Qed.

(** X16: [process] starts by synchronising (line 77): the results of
    the 16-byte read and of the 8-byte reads up to and including the first
    that returns 8 bytes are consumed without being decoded, and the loop
    starts with the read after that one. *)
Theorem process_start (fuel : nat) (args : Args) (w : world P) (k : nat) :
  let p0 := (read 16 (set_timeout 50 (port w))).2 in
  (k < fuel)%nat →
  full_read k p0 →
  (∀ j, (j < k)%nat → ¬ full_read j p0) →
  process fuel args w =
    process_loop fuel args
      (mkWorld (set_timeout 400 (after_reads (S k) p0))
               (terminal w ++ len_lines (S k) p0)).
Proof.
  intros p0 Hk Hfull Hfirst. unfold process.
  rewrite synchronize_eq, synchronize_loop_eq. cbn [port terminal]. fold p0.
  by rewrite (proj2 (first_full_spec fuel k p0) (conj Hk (conj Hfull Hfirst))).
Qed.

Lemma raw_record_raw (args : Args) (a : bytes) ba mode negative numbers :
  length a = 8%nat →
  process_frame args a = Some (RawRecord ba mode negative numbers) →
  raw args = true.
Proof.
  intros Hlen Hpf.
  destruct (process_frame_eq args a Hlen) as (M & sign & _ & _ & Heq).
  rewrite Heq in Hpf. destruct (raw args); [done|].
  destruct (modes !! tobytes (mode_key a)); [|discriminate Hpf].
  destruct (measure _ _ _ _); [|discriminate Hpf].
  destruct (overflow _ _); discriminate Hpf.
Qed.

Lemma len_lines_discipline (args : Args) (k : nat) (p : P) :
  Forall (fun e : stream * line =>
            e.1 = line_stream e.2 ∧ (raw args = false → decoded_mode_line args e.2))
         (len_lines k p).
Proof. revert p. induction k; intros p; cbn [len_lines]; by constructor. Qed.

Lemma synchronize_discipline (args : Args) (fuel : nat) (w : world P) :
  ∃ new, terminal (synchronize fuel w).2 = terminal w ++ new ∧
         Forall (fun e : stream * line =>
                   e.1 = line_stream e.2 ∧
                   (raw args = false → decoded_mode_line args e.2)) new.
Proof.
  rewrite synchronize_eq, synchronize_loop_eq. cbn [port terminal].
  destruct (first_full fuel _); cbn [fst snd terminal];
    eexists; (split; [reflexivity|]); apply len_lines_discipline.
Qed.

Lemma process_loop_discipline (fuel : nat) (args : Args) (w : world P) :
  ∃ new, terminal (process_loop fuel args w).2 = terminal w ++ new ∧
         Forall (fun e : stream * line =>
                   e.1 = line_stream e.2 ∧
                   (raw args = false → decoded_mode_line args e.2)) new.
Proof.
  revert w. induction fuel as [|fuel IH]; intros w.
  { exists []. by rewrite app_nil_r. }
  destruct (port_read 8 w) as [a w'] eqn:Hread.
  pose proof (port_read_terminal _ _ _ _ Hread) as Hterm.
  destruct (decide (length a = 8%nat)) as [Hlen|Hlen].
  - rewrite (process_loop_full fuel args w w' a Hread Hlen).
    destruct (process_frame args a) as [[ba mode negative numbers|mode value|value u]|]
      eqn:Hpf.
    + destruct (IH (print stdout (RawLine ba mode negative numbers) w'))
        as (new & Hnew & Hall).
      eexists. split.
      * rewrite Hnew. cbn [print terminal]. by rewrite Hterm, <- app_assoc.
      * constructor; [|exact Hall]. split; [done|]. intros Hraw.
        apply raw_record_raw in Hpf; [congruence | done].
    + destruct (IH (print stderr (UnknownModeLine mode value) w'))
        as (new & Hnew & Hall).
      eexists. split.
      * rewrite Hnew. cbn [print terminal]. by rewrite Hterm, <- app_assoc.
      * by constructor.
    + destruct (measurement_unit args a value u Hlen Hpf) as (_ & Hu & _).
      destruct (timestamp args) as [ts|] eqn:Hts.
      * destruct (IH (print stdout (ValueLine ts value (sep_of args) u) w'))
          as (new & Hnew & Hall).
        eexists. split.
        -- rewrite Hnew. cbn [print terminal]. by rewrite Hterm, <- app_assoc.
        -- by constructor.
      * exists []. cbn [snd]. by rewrite Hterm, app_nil_r.
    + exists []. cbn [snd]. by rewrite Hterm, app_nil_r.
  - cbn [process_loop]. rewrite Hread.
    destruct (Nat.eqb_spec (length a) 8) as [?|_]; [done|]. cbn [negb].
    destruct (synchronize_discipline args fuel (print stderr SyncLostLine w'))
      as (new & Hnew & Hall).
    destruct (synchronize fuel (print stderr SyncLostLine w')) as [[] w2];
      cbn [fst snd] in *.
    + destruct (IH w2) as (new2 & Hnew2 & Hall2).
      eexists. split.
      * rewrite Hnew2, Hnew. cbn [print terminal]. by rewrite Hterm, <- !app_assoc.
      * constructor; [done|]. by apply Forall_app.
    + eexists. split.
      * rewrite Hnew. cbn [print terminal]. by rewrite Hterm, <- app_assoc.
      * by constructor.
    + eexists. split.
      * rewrite Hnew. cbn [print terminal]. by rewrite Hterm, <- app_assoc.
      * by constructor.
Qed.

(** X17: a run of [process] only adds lines to what was printed.  The
    loss of synchronisation and the unknown modes go to the error stream,
    and the lengths [synchronize] prints, the raw records and the values
    go to the standard output.  In decoded mode no raw record is printed,
    and every value line has the time stamp and the separator the flags
    select and a unit of [all_units]. *)
Theorem run_output (fuel : nat) (args : Args) (w : world P) :
  ∃ new, terminal (process fuel args w).2 = terminal w ++ new ∧
         Forall (fun e : stream * line =>
                   e.1 = line_stream e.2 ∧
                   (raw args = false → decoded_mode_line args e.2)) new.
Proof.
  unfold process.
  destruct (synchronize_discipline args fuel w) as (new & Hnew & Hall).
  destruct (synchronize fuel w) as [[] w2]; cbn [fst snd] in *;
    [|by exists new..].
  destruct (process_loop_discipline fuel args w2) as (new2 & Hnew2 & Hall2).
  eexists. split.
  - by rewrite Hnew2, Hnew, <- app_assoc.
  - by apply Forall_app.
Qed.
End Runs.

Lemma tobytes_frombytes_witness : mode_key frame_V_DC_noise = mode_key frame_V_DC.
Proof.
  destruct (tobytes_frombytes [] [] []) as (_ & _ & _ & Hkey).
  apply Hkey; reflexivity.
Defined.

Lemma process_never_returns_witness :
  unix_time (mkArgs false false false true) = true ∧
  raw (mkArgs false false false true) = false.
Proof.
  apply (proj2 (process_never_returns 4 (mkArgs false false false true) sample_port)).
  reflexivity.
Defined.

Lemma known_frame_printed_witness :
  ∃ value u,
    process_frame (mkArgs true true false false) frame_V_DC = Some (Measurement value u) ∧
    process_loop 1 (mkArgs true true false false)
      (mkWorld (mkScripted (Some 400) [frame_V_DC] []) []) =
    (Running,
     mkWorld (mkScripted (Some 400) [] [Read 8])
             [(stdout, ValueLine IsoStamp value "," u)]).
Proof.
  apply (known_frame_printed 0 (mkArgs true true false false)
           (mkWorld (mkScripted (Some 400) [frame_V_DC] []) [])
           (mkWorld (mkScripted (Some 400) [] [Read 8]) [])
           frame_V_DC (mkMode "V DC" 10000)); reflexivity.
Defined.

(** After a short read the frame that ends the synchronisation is not
    decoded: of the two frames that follow, only the second is printed. *)
Lemma desync_recovery_witness :
  terminal (process_loop 2 plain_args
              (mkWorld (mkScripted (Some 400)
                          [take 2 frame_V_DC; take 4 frame_V_DC; frame_V_DC;
                           frame_V_DC_12] []) [])).2 =
    [ (stderr, SyncLostLine); (stdout, LenLine 8);
      (stdout, ValueLine NoStamp (Num 1.234%float) (String (ascii_of_nat 9) EmptyString)
                 "mA AC DC") ].
Proof.
  destruct (desync_recovery 1 plain_args
              (mkWorld (mkScripted (Some 400)
                          [take 2 frame_V_DC; take 4 frame_V_DC; frame_V_DC;
                           frame_V_DC_12] []) [])
              (mkWorld (mkScripted (Some 400)
                          [take 4 frame_V_DC; frame_V_DC; frame_V_DC_12] [Read 8]) [])
              (take 2 frame_V_DC)) as [Hrec _];
    [reflexivity | discriminate |].
  cbn zeta in Hrec.
  rewrite (Hrec 0%nat); [reflexivity | lia | reflexivity | intros j Hj; lia].
Defined.

(** At the start the same holds: the frame that ends the first
    synchronisation is not decoded. *)
Lemma process_start_witness :
  take 5 (terminal (process 4 plain_args sample_port).2) =
    [ (stdout, LenLine 3); (stdout, LenLine 5); (stdout, LenLine 8);
      (stderr, UnknownModeLine (mode_key frame_unknown) 1234);
      (stdout, ValueLine NoStamp (Num 1.234%float) (String (ascii_of_nat 9) EmptyString)
                 "mA AC DC") ].
Proof.
  rewrite (process_start 4 plain_args sample_port 2);
    [reflexivity | lia | reflexivity |].
  intros [|[|j]] Hj Hfull; [discriminate Hfull | discriminate Hfull | lia].
Defined.
